(** * Nuitka compiled generators: the producer side of the yield hand-off

    A shallow embedding of [nuitka/build/include/nuitka/compiled_generator.hpp]
    and the properties of its five inline operations:
    [Nuitka_Generator_Check], [Nuitka_Generator_GetName], [CHECK_EXCEPTION],
    [YIELD_VALUE] and [YIELD_RETURN].

    The C code works on a shared store (object headers with reference counts,
    the fields of generator objects, the thread's error indicator) and has
    four ways to leave a function: it returns, it throws [_PythonException],
    it aborts (a failed [assert], or undefined behaviour such as reading
    through a dangling pointer), or it switches to the caller's fiber and is
    never switched back to.  The embedding threads the store explicitly
    through a small monad with these outcomes. *)

From stdpp Require Import base option list gmap.
From Stdlib Require Import ZArith Lia.

Local Open Scope Z_scope.

(** ** Data model *)

(** Pointers are addresses; [NULL] is address zero. *)
Abbreviation addr := N (only parsing).
Definition NULL : addr := 0%N.

(** [Fiber] (from fibers.hpp) holds a saved execution context.  The saved
    registers and the stack are not modelled: saved contexts are numbered. *)
Abbreviation Fiber := N (only parsing).

(** Status of the generator object. *)
Inductive Generator_Status : Set :=
| status_Unused    (* Not used so far *)
| status_Running   (* Running, used but didn't stop yet *)
| status_Finished. (* Stoped, no more values to come *)

#[global] Instance Generator_Status_eq_dec : EqDecision Generator_Status.
Proof. solve_decision. Defined.

(** [PyObject_HEAD]: what every object starts with. *)
Record PyObject_HEAD : Set := mkHead {
  ob_refcnt : Z;
  ob_type : addr
}.

(** The fields of [Nuitka_GeneratorObject] that follow [PyObject_HEAD], in
    the order of the struct. *)
Record Nuitka_GeneratorObject : Set := mkGenerator {
  m_name : addr;
  m_yielder_context : Fiber;
  m_caller_context : Fiber;
  m_context : addr;
  m_cleanup : addr;
  m_weakrefs : addr;
  m_running : Z;
  m_code : addr;
  m_yielded : addr;
  m_exception_type : addr;
  m_exception_value : addr;
  m_exception_tb : addr;
  m_frame : addr;
  m_code_object : addr;
  m_status : Generator_Status
}.

(** [generator->m_yielded = value] *)
Definition set_m_yielded (value : addr) (G : Nuitka_GeneratorObject)
  : Nuitka_GeneratorObject :=
  {| m_name := m_name G;
     m_yielder_context := m_yielder_context G;
     m_caller_context := m_caller_context G;
     m_context := m_context G;
     m_cleanup := m_cleanup G;
     m_weakrefs := m_weakrefs G;
     m_running := m_running G;
     m_code := m_code G;
     m_yielded := value;
     m_exception_type := m_exception_type G;
     m_exception_value := m_exception_value G;
     m_exception_tb := m_exception_tb G;
     m_frame := m_frame G;
     m_code_object := m_code_object G;
     m_status := m_status G |}.

(** [generator->m_exception_type = value] *)
Definition set_m_exception_type (value : addr) (G : Nuitka_GeneratorObject)
  : Nuitka_GeneratorObject :=
  {| m_name := m_name G;
     m_yielder_context := m_yielder_context G;
     m_caller_context := m_caller_context G;
     m_context := m_context G;
     m_cleanup := m_cleanup G;
     m_weakrefs := m_weakrefs G;
     m_running := m_running G;
     m_code := m_code G;
     m_yielded := m_yielded G;
     m_exception_type := value;
     m_exception_value := m_exception_value G;
     m_exception_tb := m_exception_tb G;
     m_frame := m_frame G;
     m_code_object := m_code_object G;
     m_status := m_status G |}.

(** The two fibers of a generator, and [&generator->m_yielder_context],
    [&generator->m_caller_context]: a fiber is passed by the address of the
    field that holds it. *)
Inductive FiberField : Set :=
| at_m_yielder_context
| at_m_caller_context.

Record FiberRef : Set := mkFiberRef {
  fr_generator : addr;
  fr_field : FiberField
}.

Definition set_m_yielder_context (c : Fiber) (G : Nuitka_GeneratorObject)
  : Nuitka_GeneratorObject :=
  {| m_name := m_name G;
     m_yielder_context := c;
     m_caller_context := m_caller_context G;
     m_context := m_context G;
     m_cleanup := m_cleanup G;
     m_weakrefs := m_weakrefs G;
     m_running := m_running G;
     m_code := m_code G;
     m_yielded := m_yielded G;
     m_exception_type := m_exception_type G;
     m_exception_value := m_exception_value G;
     m_exception_tb := m_exception_tb G;
     m_frame := m_frame G;
     m_code_object := m_code_object G;
     m_status := m_status G |}.

Definition set_m_caller_context (c : Fiber) (G : Nuitka_GeneratorObject)
  : Nuitka_GeneratorObject :=
  {| m_name := m_name G;
     m_yielder_context := m_yielder_context G;
     m_caller_context := c;
     m_context := m_context G;
     m_cleanup := m_cleanup G;
     m_weakrefs := m_weakrefs G;
     m_running := m_running G;
     m_code := m_code G;
     m_yielded := m_yielded G;
     m_exception_type := m_exception_type G;
     m_exception_value := m_exception_value G;
     m_exception_tb := m_exception_tb G;
     m_frame := m_frame G;
     m_code_object := m_code_object G;
     m_status := m_status G |}.

Definition get_fiber (f : FiberField) (G : Nuitka_GeneratorObject) : Fiber :=
  match f with
  | at_m_yielder_context => m_yielder_context G
  | at_m_caller_context => m_caller_context G
  end.

Definition set_fiber (f : FiberField) (c : Fiber) (G : Nuitka_GeneratorObject)
  : Nuitka_GeneratorObject :=
  match f with
  | at_m_yielder_context => set_m_yielder_context c G
  | at_m_caller_context => set_m_caller_context c G
  end.

(** The error indicator of the current thread ([PyThreadState]). *)
Record PyThreadState : Set := mkTState {
  curexc_type : addr;
  curexc_value : addr;
  curexc_traceback : addr
}.

(** The shared store: the header of every allocated object, the fields of
    the generator objects (by the address of the object), the type objects'
    [tp_base] and the thread state.  An object that is deallocated leaves
    [heap]. *)
Record Store : Type := mkStore {
  heap : gmap N PyObject_HEAD;
  gens : gmap N Nuitka_GeneratorObject;
  tp_base : gmap N N;
  tstate : PyThreadState
}.

Definition set_heap (h : gmap N PyObject_HEAD) (s : Store) : Store :=
  {| heap := h; gens := gens s; tp_base := tp_base s; tstate := tstate s |}.

Definition set_gens (g : gmap N Nuitka_GeneratorObject) (s : Store) : Store :=
  {| heap := heap s; gens := g; tp_base := tp_base s; tstate := tstate s |}.

Definition set_tstate (t : PyThreadState) (s : Store) : Store :=
  {| heap := heap s; gens := gens s; tp_base := tp_base s; tstate := t |}.

(** One fiber switch, as the fiber switched to finds it: which fiber
    switched to which, and the store at that instant.  The switch has no
    payload of its own. *)
Record Switch : Type := mkSwitch {
  sw_from : FiberRef;
  sw_to : FiberRef;
  sw_store : Store
}.

(** The world of the producer: the store and the switches made so far
    (oldest first). *)
Record World : Type := mkWorld {
  store : Store;
  switches : list Switch
}.

Definition with_store (s : Store) (w : World) : World :=
  {| store := s; switches := switches w |}.

(** ** Outcomes and the monad *)

Inductive abort : Set :=
| AssertionFailure     (* a failed assert(): the process is aborted *)
| UndefinedBehaviour.  (* access through a pointer to no object *)

Inductive outcome (A : Type) : Type :=
| Returned (a : A) (w : World)     (* the function returned [a] *)
| Thrown (w : World)               (* throw _PythonException() *)
| Aborted (why : abort) (w : World)
| Suspended (w : World).           (* switched away, never switched back *)

Arguments Returned {A} a w.
Arguments Thrown {A} w.
Arguments Aborted {A} why w.
Arguments Suspended {A} w.

Definition world_of {A} (o : outcome A) : World :=
  match o with
  | Returned _ w | Thrown w | Aborted _ w | Suspended w => w
  end.

Definition M (A : Type) : Type := World → outcome A.

#[global] Instance M_ret : MRet M := λ A a w, Returned a w.

#[global] Instance M_bind : MBind M := λ A B f m w,
  match m w with
  | Returned a w' => f a w'
  | Thrown w' => Thrown w'
  | Aborted why w' => Aborted why w'
  | Suspended w' => Suspended w'
  end.

(** [throw _PythonException()]: the outcome holds the world at the throw.
    The class is declared in a header that is not part of the sources at
    hand; what its constructor does is not part of this header. *)
Definition throw_PythonException {A} : M A := λ w, Thrown w.

(** [generator->field], read *)
Definition load {A} (generator : addr) (field : Nuitka_GeneratorObject → A)
  : M A := λ w,
  match gens (store w) !! generator with
  | Some G => Returned (field G) w
  | None => Aborted UndefinedBehaviour w
  end.

(** [generator->field = value], as a function on the fields *)
Definition assign (generator : addr)
    (upd : Nuitka_GeneratorObject → Nuitka_GeneratorObject) : M unit := λ w,
  match gens (store w) !! generator with
  | Some G =>
      Returned tt
        (with_store
           (set_gens (<[generator := upd G]> (gens (store w))) (store w)) w)
  | None => Aborted UndefinedBehaviour w
  end.

(** ** What the header takes from CPython and from the rest of Nuitka *)

(** [Py_REFCNT(value) > 0] for an allocated object. *)
Definition is_live (s : Store) (value : addr) : bool :=
  negb (value =? NULL)%N &&
  match heap s !! value with
  | Some h => 0 <? ob_refcnt h
  | None => false
  end.

(** Modelled from the spec: [assertObject] is declared in a header that is
    not part of the sources at hand; it is the assertion of the
    live-reference invariant, "it must reference an object whose ownership
    is retained", and its failure is fatal.  A null pointer and an object
    whose reference count is not positive fail the assertion; a non-null
    pointer to no object at all cannot be inspected.  Assertions are taken
    as compiled in. *)
Definition assertObject (value : addr) : M unit := λ w,
  if (value =? NULL)%N then Aborted AssertionFailure w
  else match heap (store w) !! value with
       | None => Aborted UndefinedBehaviour w
       | Some h =>
           if 0 <? ob_refcnt h then Returned tt w
           else Aborted AssertionFailure w
       end.

(** [ob_refcnt] is a [Py_ssize_t]: 64 bits, two's complement.  An
    increment or decrement beyond its range wraps around. *)
Definition PY_SSIZE_T_MAX : Z := 2 ^ 63 - 1.
Definition PY_SSIZE_T_MIN : Z := - 2 ^ 63.

Definition Py_ssize_t_wrap (z : Z) : Z :=
  (z - PY_SSIZE_T_MIN) mod 2 ^ 64 + PY_SSIZE_T_MIN.

(** [Py_INCREF(o)]: [o->ob_refcnt++]. *)
Definition Py_INCREF (o : addr) : M unit := λ w,
  match heap (store w) !! o with
  | Some h =>
      Returned tt
        (with_store
           (set_heap (<[o := mkHead (Py_ssize_t_wrap (ob_refcnt h + 1))
                                    (ob_type h)]> (heap (store w)))
                     (store w)) w)
  | None => Aborted UndefinedBehaviour w
  end.

(** [Py_XINCREF(o)]: [Py_INCREF] unless [o] is [NULL]. *)
Definition Py_XINCREF (o : addr) : M unit :=
  if (o =? NULL)%N then mret tt else Py_INCREF o.

(** [_Py_Dealloc(o)]: the object is deallocated, its header leaves the heap,
    and whoever follows a pointer to it afterwards finds no object.  The
    destructor of its type is not part of this header: what it does besides,
    with the fields and the references of the object, is not modelled, and
    the fields of a generator object stay in [gens]. *)
Definition _Py_Dealloc (o : addr) : M unit := λ w,
  Returned tt (with_store (set_heap (delete o (heap (store w))) (store w)) w).

(** [Py_DECREF(o)]: [if (--o->ob_refcnt == 0) _Py_Dealloc(o)]. *)
Definition Py_DECREF (o : addr) : M unit := λ w,
  match heap (store w) !! o with
  | Some h =>
      let n := Py_ssize_t_wrap (ob_refcnt h - 1) in
      let w' := with_store
                  (set_heap (<[o := mkHead n (ob_type h)]> (heap (store w)))
                            (store w)) w in
      if n =? 0 then _Py_Dealloc o w' else Returned tt w'
  | None => Aborted UndefinedBehaviour w
  end.

Definition Py_XDECREF (o : addr) : M unit :=
  if (o =? NULL)%N then mret tt else Py_DECREF o.

(** [Py_TYPE(object)] *)
Definition Py_TYPE (object : addr) : M addr := λ w,
  match heap (store w) !! object with
  | Some h => Returned (ob_type h) w
  | None => Aborted UndefinedBehaviour w
  end.

(** [PyErr_Restore(type, value, traceback)], as in CPython's errors.c.  A
    traceback that is not null and fails [PyTraceBack_Check], that is, whose
    type is not [&PyTraceBack_Type], is released and replaced by null ("it
    could be None").  Then the three pointers become the thread's error
    indicator (the call takes over one reference to each), and the
    references the indicator held before are released. *)
Definition PyErr_Restore (PyTraceBack_Type : addr)
    (type value traceback : addr) : M unit :=
  traceback ←
    (if negb (traceback =? NULL)%N then
       t ← Py_TYPE traceback;
       if negb (t =? PyTraceBack_Type)%N then
         Py_DECREF traceback ;; mret NULL
       else mret traceback
     else mret traceback) : M addr;
  ((λ w,
     let old := tstate (store w) in
     (Py_XDECREF (curexc_type old) ;;
      Py_XDECREF (curexc_value old) ;;
      Py_XDECREF (curexc_traceback old))
       (with_store (set_tstate (mkTState type value traceback) (store w)) w))
   : M unit).

(** ** The operations of the header *)

Section Generator.

(** [&PyTraceBack_Type], [&Nuitka_Generator_Type] and [Py_None] are
    addresses fixed at link time; [PYTHON_VERSION] is fixed at compile
    time. *)
Variable PyTraceBack_Type : addr.
Variable Nuitka_Generator_Type : addr.
Variable Py_None : addr.
Variable PYTHON_VERSION : Z.

(** The code on the other side of the switch: given the switches so far
    and the store it finds, the caller either switches back with the store
    it leaves, or never switches back. *)
Variable caller : list Switch → Store → option Store.

(** Modelled from the spec: [swapFiber] is declared in fibers.hpp, which is
    not part of the sources at hand.  "switchTo(from, to) suspends the
    calling context and resumes the target context at the exact point it
    last suspended"; "no value is carried by the switch primitive itself;
    all data hand-off happens through the Generator entity's shared slots".
    The context of the calling code is saved in the fiber at [from], a new
    context at every suspension: the one saved is the successor of the one
    the fiber held.  The fiber at [to] is read and resumed.  The producer
    goes on when the caller switches back. *)
Definition swapFiber (from to : FiberRef) : M unit :=
  c ← load (fr_generator from) (get_fiber (fr_field from));
  load (fr_generator to) (get_fiber (fr_field to)) ;;
  assign (fr_generator from) (set_fiber (fr_field from) (N.succ c)) ;;
  ((λ w,
     let sws := switches w ++ [mkSwitch from to (store w)] in
     match caller sws (store w) with
     | Some s' => Returned tt (mkWorld s' sws)
     | None => Suspended (mkWorld (store w) sws)
     end) : M unit).

Definition Nuitka_Generator_Check (object : addr) : M bool :=
  t ← Py_TYPE object;
  mret (t =? Nuitka_Generator_Type)%N.

Definition Nuitka_Generator_GetName (object : addr) : M addr :=
  load object m_name.

Definition CHECK_EXCEPTION (generator : addr) : M unit :=
  t ← load generator m_exception_type;
  if negb (t =? NULL)%N then
    (t ← load generator m_exception_type; assertObject t) ;;
    (t ← load generator m_exception_type; Py_INCREF t) ;;
    (v ← load generator m_exception_value; Py_XINCREF v) ;;
    (tb ← load generator m_exception_tb; Py_XINCREF tb) ;;
    (t ← load generator m_exception_type;
     v ← load generator m_exception_value;
     tb ← load generator m_exception_tb;
     PyErr_Restore PyTraceBack_Type t v tb) ;;
    assign generator (set_m_exception_type NULL) ;;
    throw_PythonException
  else mret tt.

Definition YIELD_VALUE (generator value : addr) : M addr :=
  assertObject value ;;
  assign generator (set_m_yielded value) ;;
  (* Return to the calling context. *)
  swapFiber (mkFiberRef generator at_m_yielder_context)
            (mkFiberRef generator at_m_caller_context) ;;
  CHECK_EXCEPTION generator ;;
  load generator m_yielded.

Definition YIELD_RETURN (generator value : addr) : M unit :=
  if PYTHON_VERSION <? 270 then
    if negb (value =? Py_None)%N then
      YIELD_VALUE generator value ;; mret tt
    else mret tt
  else mret tt.

(** The operations of the header, as a producer's body invokes them. *)
Inductive Op : Set :=
| op_YIELD_VALUE (generator value : addr)
| op_YIELD_RETURN (generator value : addr)
| op_CHECK_EXCEPTION (generator : addr)
| op_GetName (object : addr)
| op_Check (object : addr).

Definition run_op (o : Op) : M unit :=
  match o with
  | op_YIELD_VALUE generator value => YIELD_VALUE generator value ;; mret tt
  | op_YIELD_RETURN generator value => YIELD_RETURN generator value
  | op_CHECK_EXCEPTION generator => CHECK_EXCEPTION generator
  | op_GetName object => Nuitka_Generator_GetName object ;; mret tt
  | op_Check object => Nuitka_Generator_Check object ;; mret tt
  end.

(** A producer body that invokes operations in order.  An exception thrown
    at an operation is caught by the body, which goes on; a body that does
    not catch it ends there, which is the run of a shorter sequence. *)
Fixpoint run_ops (ops : list Op) (w : World) : outcome unit :=
  match ops with
  | [] => Returned tt w
  | o :: rest =>
      match run_op o w with
      | Returned _ w' | Thrown w' => run_ops rest w'
      | Aborted why w' => Aborted why w'
      | Suspended w' => Suspended w'
      end
  end.

End Generator.

(** ** Vocabulary of the properties *)

(** The reference count at an address; nothing is counted where there is no
    object. *)
Definition rc (s : Store) (a : addr) : Z :=
  match heap s !! a with
  | Some h => ob_refcnt h
  | None => 0
  end.

(** The references to [a] that the pointer [o] stands for: one if [o] is
    non-null and points to [a]. *)
Definition ref_to (o a : addr) : Z :=
  if decide (o ≠ NULL ∧ o = a) then 1 else 0.

(** The references the thread's error indicator owns to [a]. *)
Definition tstate_refs (s : Store) (a : addr) : Z :=
  ref_to (curexc_type (tstate s)) a +
  ref_to (curexc_value (tstate s)) a +
  ref_to (curexc_traceback (tstate s)) a.

(** From [w] to [w'] nothing but the heap and the error indicator changed,
    and in the heap no object appeared or changed its type. *)
Record frame (w w' : World) : Prop := mkFrame {
  fr_gens : gens (store w') = gens (store w);
  fr_tp_base : tp_base (store w') = tp_base (store w);
  fr_switches : switches w' = switches w;
  fr_survivor : ∀ a h', heap (store w') !! a = Some h' →
                        ∃ h, heap (store w) !! a = Some h ∧
                             ob_type h' = ob_type h
}.

(** [w'] is [w] with the reference counts moved by [d] and the objects
    whose count came to zero deallocated, nothing else. *)
Record counts_moved (d : addr → Z) (w w' : World) : Prop := mkCountsMoved {
  cm_frame : frame w w';
  cm_tstate : tstate (store w') = tstate (store w);
  cm_rc : ∀ a, rc (store w') a = rc (store w) a + d a
}.

(** The traceback that [PyErr_Restore] makes of the pointer [tb]: [tb]
    itself if it is a traceback object, null if not. *)
Definition checked_traceback (PyTraceBack_Type : addr) (s : Store)
    (tb : addr) : addr :=
  if (tb =? NULL)%N then NULL
  else match heap s !! tb with
       | Some h => if (ob_type h =? PyTraceBack_Type)%N then tb else NULL
       | None => NULL
       end.

(** The primitives above return or abort; they neither throw nor switch. *)
Definition plain {A} (o : outcome A) : Prop :=
  match o with
  | Returned _ _ | Aborted _ _ => True
  | Thrown _ | Suspended _ => False
  end.

(** The outcome is not a failed assertion. *)
Definition no_assertion_failure {A} (o : outcome A) : Prop :=
  ∀ w, o ≠ Aborted AssertionFailure w.

(** The object at [o] is dead: it is there and its count is not positive. *)
Definition is_dead (s : Store) (o : addr) : Prop :=
  ∃ h, heap s !! o = Some h ∧ ob_refcnt h ≤ 0.

(** What raising the pending error of generator [g], whose fields were [G],
    makes of world [w]. *)
Record raised (PyTraceBack_Type : addr) (g : addr)
    (G : Nuitka_GeneratorObject) (w w' : World) : Prop := mkRaised {
  rs_live : is_live (store w) (m_exception_type G) = true;
  rs_gens : gens (store w') =
            <[g := set_m_exception_type NULL G]> (gens (store w));
  rs_tstate : tstate (store w') =
              mkTState (m_exception_type G) (m_exception_value G)
                (checked_traceback PyTraceBack_Type (store w)
                   (m_exception_tb G));
  rs_tp_base : tp_base (store w') = tp_base (store w);
  rs_switches : switches w' = switches w;
  rs_survivor : ∀ a h', heap (store w') !! a = Some h' →
                        ∃ h, heap (store w) !! a = Some h ∧
                             ob_type h' = ob_type h
}.

(** The references the pending-error slots of a generator hold to [a]. *)
Definition slot_refs (G : Nuitka_GeneratorObject) (a : addr) : Z :=
  ref_to (m_exception_type G) a +
  ref_to (m_exception_value G) a +
  ref_to (m_exception_tb G) a.

(** The references that the error indicator owns are counted. *)
Definition indicator_counted (s : Store) : Prop :=
  ∀ a, tstate_refs s a ≤ rc s a.

(** No reference count is within three of the largest. *)
Definition counts_bounded (s : Store) : Prop :=
  ∀ a, rc s a + 3 ≤ PY_SSIZE_T_MAX.

Definition null_or_live (s : Store) (o : addr) : Prop :=
  o = NULL ∨ is_live s o = true.

(** The generator object has a reference that is not the error indicator's:
    the raise, which releases the references the indicator held, does not
    free the generator it works on. *)
Definition generator_kept (s : Store) (g : addr) : Prop :=
  tstate_refs s g < rc s g.

(** What CHECK_EXCEPTION needs beyond its assertion for the raise to be
    defined and the counts exact: the value and the traceback slots hold
    null or live objects, the references of the error indicator are counted,
    no count is about to wrap around, and the generator is not freed under
    the raise. *)
Definition raise_defined (s : Store) (g : addr) (G : Nuitka_GeneratorObject)
  : Prop :=
  null_or_live s (m_exception_value G) ∧
  null_or_live s (m_exception_tb G) ∧
  indicator_counted s ∧
  counts_bounded s ∧
  generator_kept s g.

(** The store as the caller finds it at the switch of [YIELD_VALUE]: the
    value is in the slot and the producer's context is saved. *)
Definition yielded_store (g value : addr) (G : Nuitka_GeneratorObject)
    (s : Store) : Store :=
  set_gens
    (<[g := set_m_yielder_context (N.succ (m_yielder_context G))
              (set_m_yielded value G)]> (gens s)) s.

(** The switches up to and including the one of [YIELD_VALUE]. *)
Definition yielded_switches (g value : addr) (G : Nuitka_GeneratorObject)
    (w : World) : list Switch :=
  switches w ++
  [mkSwitch (mkFiberRef g at_m_yielder_context)
            (mkFiberRef g at_m_caller_context)
            (yielded_store g value G (store w))].

(** What the caller finds in the pending-value slot of generator [g] at a
    switch. *)
Definition seen (g : addr) (sw : Switch) : option addr :=
  m_yielded <$> gens (sw_store sw) !! g.

(** The order of the lifecycle: Unused, then Running, then Finished. *)
Definition status_rank (s : Generator_Status) : nat :=
  match s with
  | status_Unused => 0
  | status_Running => 1
  | status_Finished => 2
  end.

Definition status_le (a b : Generator_Status) : Prop :=
  (status_rank a ≤ status_rank b)%nat.

(** Modelled from the spec: the caller-side operations (resume, close) and
    the end of the producer's body are not in the header; these are the
    triggers of the table of the spec's section 4.2, "Generator state
    machine".  A trigger in a state the table has no row for makes no
    transition. *)
Inductive Trigger : Set :=
| trigger_resume            (* resume() *)
| trigger_yield             (* producer yields *)
| trigger_finish            (* producer returns normally or raises unhandled *)
| trigger_close.            (* close()/cancel() *)

(** Modelled from the spec: the rows of the table of section 4.2, from
    state and trigger to state; resume() on a Finished generator fails with
    no state change, and "no transition leaves Finished". *)
Definition transition (from : Generator_Status) (t : Trigger)
  : Generator_Status :=
  match from, t with
  | status_Unused, trigger_resume => status_Running
  | status_Running, trigger_yield => status_Running
  | status_Running, trigger_resume => status_Running
  | status_Running, trigger_finish => status_Finished
  | status_Running, trigger_close => status_Finished
  | status_Unused, trigger_close => status_Finished
  | status_Finished, trigger_resume => status_Finished
  | from, _ => from
  end.

(** Status [b] is reached from status [a] by transitions of the table. *)
Definition table_reachable (a b : Generator_Status) : Prop :=
  ∃ ts : list Trigger, fold_left transition ts a = b.

(** [G'] is [G] but for the two slots the header assigns to and the fiber
    in which the context of the producer is saved at a switch. *)
Definition slots_apart (G G' : Nuitka_GeneratorObject) : Prop :=
  G' = set_m_yielder_context (m_yielder_context G')
         (set_m_yielded (m_yielded G')
            (set_m_exception_type (m_exception_type G') G)).

(** From [w] to [w'] no fiber was switched to, no generator came or went,
    and no field of a generator but [m_yielded], [m_exception_type] and
    [m_yielder_context] was written to. *)
Definition silent (w w' : World) : Prop :=
  switches w' = switches w ∧
  tp_base (store w') = tp_base (store w) ∧
  ∀ g, match gens (store w) !! g, gens (store w') !! g with
       | Some G, Some G' => slots_apart G G'
       | None, None => True
       | _, _ => False
       end.

(** Field [field] of generator [g], if [g] is there in [w], is there in
    [w'] and related by [R]. *)
Definition evolves {A} (field : Nuitka_GeneratorObject → A) (R : relation A)
    (g : addr) (s s' : Store) : Prop :=
  ∀ G, gens s !! g = Some G →
       ∃ G', gens s' !! g = Some G' ∧ R (field G) (field G').

(** Every turn of the caller relates the field by [R]. *)
Definition caller_keeps {A} (caller : list Switch → Store → option Store)
    (field : Nuitka_GeneratorObject → A) (R : relation A) (g : addr) : Prop :=
  ∀ sws s s', caller sws s = Some s' → evolves field R g s s'.

(** [m] relates the world it starts in to the world it ends in by [P]. *)
Definition preserves {A} (P : World → World → Prop) (m : M A) : Prop :=
  ∀ w, P w (world_of (m w)).

(** [t] is a type derived from [b]: [b] is on the [tp_base] chain of [t]. *)
Inductive derives_from (s : Store) : addr → addr → Prop :=
| derives_base t b :
    tp_base s !! t = Some b → derives_from s t b
| derives_step t m b :
    tp_base s !! t = Some m → derives_from s m b → derives_from s t b.

(** ** Concrete stores and callers for the examples *)

Definition ex_generator : Nuitka_GeneratorObject :=
  {| m_name := 11; m_yielder_context := 1; m_caller_context := 2;
     m_context := 0; m_cleanup := 0; m_weakrefs := 0; m_running := 1;
     m_code := 0; m_yielded := 0; m_exception_type := 0;
     m_exception_value := 0; m_exception_tb := 0; m_frame := 0;
     m_code_object := 0; m_status := status_Running |}.

(** Object 10 is a generator (its type is 100), 11 its name, 20 and 21 are
    values, 22 is a dead object, 30, 31 and 32 an exception's type, value
    and traceback, 50 an instance of type 101, which derives from 100, and 7
    is [Py_None]. *)
Definition ex_store : Store :=
  {| heap := list_to_map
       [(10, mkHead 1 100); (11, mkHead 1 102); (20, mkHead 1 103);
        (21, mkHead 2 103); (22, mkHead 0 103); (30, mkHead 5 104);
        (31, mkHead 1 30); (32, mkHead 1 105); (50, mkHead 1 101);
        (7, mkHead 9 106)]%N;
     gens := {[ 10%N := ex_generator ]};
     tp_base := {[ 101%N := 100%N ]};
     tstate := mkTState 0 0 0 |}.

Definition ex_world : World := mkWorld ex_store [].

(** What a caller does to the store before it resumes the generator at 10
    with a sent value. *)
Definition ex_sent (sent : addr) (s : Store) : Store :=
  set_gens (alter (set_m_yielded sent) 10%N (gens s)) s.

(** What a caller does to the store before it resumes the generator at 10
    with an injected error. *)
Definition ex_injected (type value tb : addr) (s : Store) : Store :=
  set_gens
    (alter (λ G, {| m_name := m_name G;
                    m_yielder_context := m_yielder_context G;
                    m_caller_context := m_caller_context G;
                    m_context := m_context G;
                    m_cleanup := m_cleanup G;
                    m_weakrefs := m_weakrefs G;
                    m_running := m_running G;
                    m_code := m_code G;
                    m_yielded := NULL;
                    m_exception_type := type;
                    m_exception_value := value;
                    m_exception_tb := tb;
                    m_frame := m_frame G;
                    m_code_object := m_code_object G;
                    m_status := m_status G |}) 10%N (gens s)) s.

(** A caller that always resumes with the same sent value. *)
Definition ex_send (sent : addr) : list Switch → Store → option Store :=
  λ _ s, Some (ex_sent sent s).

(** A caller that always resumes with the same injected error. *)
Definition ex_throw (type value tb : addr)
  : list Switch → Store → option Store :=
  λ _ s, Some (ex_injected type value tb s).

(** A caller that injects an error at the first switch and sends [Py_None]
    from then on. *)
Definition ex_throw_once (type value tb : addr)
  : list Switch → Store → option Store :=
  λ sws s,
    match sws with
    | [_] => Some (ex_injected type value tb s)
    | _ => Some (ex_sent 7%N s)
    end.

(** The fields of the generator at 10 with the error (30, 31, 32) pending. *)
Definition ex_pending_generator : Nuitka_GeneratorObject :=
  {| m_name := 11; m_yielder_context := 1; m_caller_context := 2;
     m_context := 0; m_cleanup := 0; m_weakrefs := 0; m_running := 1;
     m_code := 0; m_yielded := 0; m_exception_type := 30;
     m_exception_value := 31; m_exception_tb := 32; m_frame := 0;
     m_code_object := 0; m_status := status_Running |}.

(** The world of a producer resumed with the error (30, 31, 32) pending. *)
Definition ex_pending_world : World :=
  mkWorld (ex_injected 30 31 32 ex_store) [].

(** A caller that never resumes. *)
Definition ex_never : list Switch → Store → option Store := λ _ _, None.

(** ** Vocabulary of the further properties *)

(** What an outcome returns, if it returns. *)
Definition returned {A} (o : outcome A) : option A :=
  match o with
  | Returned a _ => Some a
  | _ => None
  end.

(** Every object there in [w'] was there in [w], with the type it has. *)
Definition no_new_objects (w w' : World) : Prop :=
  ∀ a h', heap (store w') !! a = Some h' →
          ∃ h, heap (store w) !! a = Some h ∧ ob_type h' = ob_type h.

(** From [w] to [w'] no fiber was switched to, no object came or changed
    its type, and no field of a generator was assigned to, but possibly
    [m_exception_type] of generator [g], which was then set to null. *)
Definition resets_kind_at_most (g : addr) (w w' : World) : Prop :=
  switches w' = switches w ∧
  tp_base (store w') = tp_base (store w) ∧
  no_new_objects w w' ∧
  (gens (store w') = gens (store w) ∨
   ∃ G, gens (store w) !! g = Some G ∧
        gens (store w') =
        <[g := set_m_exception_type NULL G]> (gens (store w))).

(** The objects whose type is the generator type are generator objects:
    what the cast in [Nuitka_Generator_GetName] relies on. *)
Definition generators_typed (Nuitka_Generator_Type : addr) (s : Store) : Prop :=
  ∀ o h, heap s !! o = Some h → ob_type h = Nuitka_Generator_Type →
         is_Some (gens s !! o).

(** A second generator, at 12, beside the one at 10; its pending value is
    21. *)
Definition ex_store2 : Store :=
  set_heap (<[12%N := mkHead 1 100]> (heap ex_store))
    (set_gens (<[12%N := set_m_yielded 21 ex_generator]> (gens ex_store))
       ex_store).

Definition ex_world2 : World := mkWorld ex_store2 [].

(** A store whose error indicator holds an earlier error (30, 31, null),
    with the error (30, 31, 32) pending in the generator at 10. *)
Definition ex_reraise_world : World :=
  mkWorld (set_tstate (mkTState 30 31 0) (ex_injected 30 31 32 ex_store)) [].

(** The fields of the generator at 10 with the error (30, 31, None)
    pending: the traceback slot holds object 7, which is no traceback
    object. *)
Definition ex_untraced_generator : Nuitka_GeneratorObject :=
  {| m_name := 11; m_yielder_context := 1; m_caller_context := 2;
     m_context := 0; m_cleanup := 0; m_weakrefs := 0; m_running := 1;
     m_code := 0; m_yielded := 0; m_exception_type := 30;
     m_exception_value := 31; m_exception_tb := 7; m_frame := 0;
     m_code_object := 0; m_status := status_Running |}.

(** The world of a producer resumed with that error pending. *)
Definition ex_untraced_world : World :=
  mkWorld (ex_injected 30 31 7 ex_store) [].

(** A store whose error indicator holds an earlier error (30, 20, null), the
    only reference there is to object 20, with the error (30, 31, 32)
    pending in the generator at 10. *)
Definition ex_release_world : World :=
  mkWorld (set_tstate (mkTState 30 20 0) (ex_injected 30 31 32 ex_store)) [].


(** * Reasoning about the header *)

(** [&PyTraceBack_Type] is the same address throughout. *)
Section Header_properties.

Variable PyTraceBack_Type : addr.

(** ** Reasoning about the monad and the primitives *)

Lemma bind_unfold {A B} (m : M A) (f : A → M B) (w : World) :
  (m ≫= f) w =
  match m w with
  | Returned a w' => f a w'
  | Thrown w' => Thrown w'
  | Aborted why w' => Aborted why w'
  | Suspended w' => Suspended w'
  end.
Proof. reflexivity. Qed.

Lemma load_Some {A B} g (field : Nuitka_GeneratorObject → A) (k : A → M B)
    w G :
  gens (store w) !! g = Some G →
  (load g field ≫= k) w = k (field G) w.
Proof. intros HG. rewrite bind_unfold. unfold load. by rewrite HG. Qed.

Lemma load_None {A B} g (field : Nuitka_GeneratorObject → A) (k : A → M B)
    w :
  gens (store w) !! g = None →
  (load g field ≫= k) w = Aborted UndefinedBehaviour w.
Proof. intros HG. rewrite bind_unfold. unfold load. by rewrite HG. Qed.

Lemma ref_to_nonnull o a :
  o ≠ NULL → ref_to o a = if decide (o = a) then 1 else 0.
Proof.
  intros Hne. unfold ref_to.
  destruct (decide (o = a)), (decide (o ≠ NULL ∧ o = a)); tauto || lia.
Qed.

Lemma ref_to_self o : o ≠ NULL → ref_to o o = 1.
Proof. intros Hne. unfold ref_to. by rewrite decide_True. Qed.

Lemma ref_to_other o a : o ≠ a → ref_to o a = 0.
Proof. intros Hne. unfold ref_to. rewrite decide_False; [done|]. tauto. Qed.

Lemma ref_to_range o a : 0 ≤ ref_to o a ≤ 1.
Proof. unfold ref_to. case_decide; lia. Qed.

Lemma ref_to_NULL a : ref_to NULL a = 0.
Proof. unfold ref_to. rewrite decide_False; [done|]. by intros [? _]. Qed.

Lemma Py_ssize_t_wrap_id z :
  PY_SSIZE_T_MIN ≤ z ≤ PY_SSIZE_T_MAX → Py_ssize_t_wrap z = z.
Proof.
  unfold Py_ssize_t_wrap, PY_SSIZE_T_MIN, PY_SSIZE_T_MAX.
  change (2 ^ 63) with 9223372036854775808.
  change (2 ^ 64) with 18446744073709551616.
  intros H. rewrite Z.mod_small by lia. lia.
Qed.

Lemma PY_SSIZE_T_MAX_pos : 3 < PY_SSIZE_T_MAX ∧ PY_SSIZE_T_MIN < -3.
Proof. by vm_compute. Qed.

Lemma is_live_spec s value :
  is_live s value = true ↔
  value ≠ NULL ∧ ∃ h, heap s !! value = Some h ∧ 0 < ob_refcnt h.
Proof.
  unfold is_live. destruct (N.eqb_spec value NULL) as [->|Hne]; simpl.
  - split; [done|]. by intros [? _].
  - destruct (heap s !! value) as [h|].
    + destruct (Z.ltb_spec 0 (ob_refcnt h)); split; try done.
      * eauto.
      * intros (_ & h' & [= <-] & ?). lia.
    + split; [done|]. by intros (_ & h' & ? & _).
Qed.

Lemma is_live_rc s a : is_live s a = true ↔ a ≠ NULL ∧ 0 < rc s a.
Proof.
  rewrite is_live_spec. unfold rc. split.
  - intros (Hne & h & -> & Hh). done.
  - intros (Hne & Hrc). split; [done|].
    destruct (heap s !! a) as [h|]; [eauto|lia].
Qed.

Lemma rc_mapped s a : rc s a ≠ 0 → is_Some (heap s !! a).
Proof. unfold rc. destruct (heap s !! a); [eauto|done]. Qed.

Lemma rc_insert s o n ty a :
  rc (set_heap (<[o := mkHead n ty]> (heap s)) s) a =
  if decide (o = a) then n else rc s a.
Proof.
  unfold rc. simpl. rewrite lookup_insert. by destruct (decide (o = a)).
Qed.

Lemma rc_delete s o a :
  rc (set_heap (delete o (heap s)) s) a = if decide (o = a) then 0 else rc s a.
Proof.
  unfold rc. simpl. rewrite lookup_delete. by destruct (decide (o = a)).
Qed.

(** *** Frames *)

Lemma frame_refl w : frame w w.
Proof. split; eauto. Qed.

Lemma frame_trans w1 w2 w3 : frame w1 w2 → frame w2 w3 → frame w1 w3.
Proof.
  intros H1 H2. split.
  - by rewrite (fr_gens _ _ H2), (fr_gens _ _ H1).
  - by rewrite (fr_tp_base _ _ H2), (fr_tp_base _ _ H1).
  - by rewrite (fr_switches _ _ H2), (fr_switches _ _ H1).
  - intros a h3 H3. destruct (fr_survivor _ _ H2 a h3 H3) as (h2 & Hh2 & E2).
    destruct (fr_survivor _ _ H1 a h2 Hh2) as (h1 & Hh1 & E1).
    exists h1. split; [done|congruence].
Qed.

Lemma frame_update w o h n :
  heap (store w) !! o = Some h →
  frame w (with_store
             (set_heap (<[o := mkHead n (ob_type h)]> (heap (store w)))
                       (store w)) w).
Proof.
  intros Hh. split; try done. intros a h'. simpl. rewrite lookup_insert.
  destruct (decide (o = a)) as [<-|]; [|eauto]. intros [= <-]. eauto.
Qed.

Lemma frame_update_delete w o h n :
  heap (store w) !! o = Some h →
  frame w
    (with_store
       (set_heap
          (delete o (<[o := mkHead n (ob_type h)]> (heap (store w))))
          (store w)) w).
Proof.
  intros Hh. split; try done. intros a h'. simpl. rewrite lookup_delete.
  destruct (decide (o = a)); [done|]. rewrite lookup_insert_ne by done. eauto.
Qed.

Lemma frame_delete w o :
  frame w (with_store (set_heap (delete o (heap (store w))) (store w)) w).
Proof.
  split; try done. intros a h'. simpl. rewrite lookup_delete.
  destruct (decide (o = a)); [done|eauto].
Qed.

Lemma frame_tstate w t : frame w (with_store (set_tstate t (store w)) w).
Proof. split; try done. intros a h'. simpl. eauto. Qed.

Lemma counts_moved_refl w : counts_moved (λ _, 0) w w.
Proof. split; [apply frame_refl|done|intros; lia]. Qed.

Lemma counts_moved_trans d1 d2 w1 w2 w3 :
  counts_moved d1 w1 w2 → counts_moved d2 w2 w3 →
  counts_moved (λ a, d1 a + d2 a) w1 w3.
Proof.
  intros H1 H2. split.
  - eapply frame_trans; [apply H1|apply H2].
  - by rewrite (cm_tstate _ _ _ H2), (cm_tstate _ _ _ H1).
  - intros a. rewrite (cm_rc _ _ _ H2), (cm_rc _ _ _ H1). lia.
Qed.

Lemma counts_moved_ext d d' w w' :
  (∀ a, d a = d' a) → counts_moved d w w' → counts_moved d' w w'.
Proof. intros E H. split; try apply H. intros a. rewrite <- E. apply H. Qed.

(** *** The reference counts, whatever they are *)

Lemma Py_INCREF_inv o w u w' :
  Py_INCREF o w = Returned u w' →
  is_Some (heap (store w) !! o) ∧ frame w w' ∧
  tstate (store w') = tstate (store w).
Proof.
  unfold Py_INCREF. destruct (heap (store w) !! o) as [h|] eqn:Hh; [|done].
  intros [= <- <-]. split; [eauto|]. split; [by apply frame_update|done].
Qed.

Lemma Py_DECREF_inv o w u w' :
  Py_DECREF o w = Returned u w' →
  is_Some (heap (store w) !! o) ∧ frame w w' ∧
  tstate (store w') = tstate (store w).
Proof.
  unfold Py_DECREF. destruct (heap (store w) !! o) as [h|] eqn:Hh; [|done].
  cbv zeta. destruct (_ =? 0).
  - intros [= <- <-]. split; [eauto|]. split; [|done].
    exact (frame_update_delete w o h
             (Py_ssize_t_wrap (ob_refcnt h - 1)) Hh).
  - intros [= <- <-]. split; [eauto|]. split; [by apply frame_update|done].
Qed.

Lemma Py_XINCREF_inv o w u w' :
  Py_XINCREF o w = Returned u w' →
  frame w w' ∧ tstate (store w') = tstate (store w).
Proof.
  unfold Py_XINCREF. destruct (o =? NULL)%N.
  - intros [= <- <-]. split; [apply frame_refl|done].
  - intros H. by apply Py_INCREF_inv in H as (_ & ? & ?).
Qed.

Lemma Py_XDECREF_inv o w u w' :
  Py_XDECREF o w = Returned u w' →
  frame w w' ∧ tstate (store w') = tstate (store w).
Proof.
  unfold Py_XDECREF. destruct (o =? NULL)%N.
  - intros [= <- <-]. split; [apply frame_refl|done].
  - intros H. by apply Py_DECREF_inv in H as (_ & ? & ?).
Qed.

(** *** The reference counts, exactly, when they stay in range *)

Lemma Py_INCREF_exact o w :
  is_Some (heap (store w) !! o) →
  PY_SSIZE_T_MIN ≤ rc (store w) o + 1 ≤ PY_SSIZE_T_MAX →
  ∃ w', Py_INCREF o w = Returned tt w' ∧
        counts_moved (λ a, if decide (o = a) then 1 else 0) w w'.
Proof.
  intros [h Hh] Hr. unfold Py_INCREF. rewrite Hh. eexists. split; [done|].
  assert (rc (store w) o = ob_refcnt h) as Hrc by (unfold rc; by rewrite Hh).
  split; [by apply frame_update|done|].
  intros a. simpl. rewrite rc_insert.
  destruct (decide (o = a)) as [<-|]; [|lia].
  rewrite Py_ssize_t_wrap_id; lia.
Qed.

Lemma Py_XINCREF_exact o w :
  o = NULL ∨
  (is_Some (heap (store w) !! o) ∧
   PY_SSIZE_T_MIN ≤ rc (store w) o + 1 ≤ PY_SSIZE_T_MAX) →
  ∃ w', Py_XINCREF o w = Returned tt w' ∧ counts_moved (ref_to o) w w'.
Proof.
  unfold Py_XINCREF. intros [->|[Hs Hr]].
  - exists w. split; [done|].
    apply (counts_moved_ext (λ _, 0)); [|apply counts_moved_refl].
    intros a. by rewrite ref_to_NULL.
  - destruct (N.eqb_spec o NULL) as [->|Hne].
    + exists w. split; [done|].
      apply (counts_moved_ext (λ _, 0)); [|apply counts_moved_refl].
      intros a. by rewrite ref_to_NULL.
    + destruct (Py_INCREF_exact o w Hs Hr) as (w' & E & Hm).
      exists w'. split; [done|].
      apply (counts_moved_ext _ _ _ _ (λ a, eq_sym (ref_to_nonnull o a Hne))).
      exact Hm.
Qed.

Lemma Py_DECREF_exact o w :
  1 ≤ rc (store w) o ≤ PY_SSIZE_T_MAX →
  ∃ w', Py_DECREF o w = Returned tt w' ∧
        counts_moved (λ a, if decide (o = a) then -1 else 0) w w'.
Proof.
  intros Hr. destruct (rc_mapped (store w) o) as [h Hh]; [lia|].
  assert (rc (store w) o = ob_refcnt h) as Hrc by (unfold rc; by rewrite Hh).
  pose proof PY_SSIZE_T_MAX_pos as [_ Hmin].
  assert (Py_ssize_t_wrap (ob_refcnt h - 1) = ob_refcnt h - 1) as Hw
    by (apply Py_ssize_t_wrap_id; lia).
  unfold Py_DECREF. rewrite Hh. cbv zeta. rewrite Hw.
  destruct (Z.eqb_spec (ob_refcnt h - 1) 0) as [Hz|Hnz].
  - eexists. split; [done|]. split; [|done|].
    + exact (frame_update_delete w o h (ob_refcnt h - 1) Hh).
    + intros a. unfold rc. simpl. rewrite lookup_delete.
      destruct (decide (o = a)) as [<-|]; [rewrite Hh; lia|].
      rewrite lookup_insert_ne by done. lia.
  - eexists. split; [done|]. split; [by apply frame_update|done|].
    intros a. simpl. rewrite rc_insert.
    destruct (decide (o = a)) as [<-|]; lia.
Qed.

Lemma Py_XDECREF_exact o w :
  o = NULL ∨ 1 ≤ rc (store w) o ≤ PY_SSIZE_T_MAX →
  ∃ w', Py_XDECREF o w = Returned tt w' ∧
        counts_moved (λ a, - ref_to o a) w w'.
Proof.
  unfold Py_XDECREF. intros [->|Hr].
  - exists w. split; [done|].
    apply (counts_moved_ext (λ _, 0)); [|apply counts_moved_refl].
    intros a. by rewrite ref_to_NULL.
  - destruct (N.eqb_spec o NULL) as [->|Hne].
    + exists w. split; [done|].
      apply (counts_moved_ext (λ _, 0)); [|apply counts_moved_refl].
      intros a. by rewrite ref_to_NULL.
    + destruct (Py_DECREF_exact o w Hr) as (w' & E & Hm).
      exists w'. split; [done|].
      eapply counts_moved_ext; [|exact Hm].
      intros a. simpl. rewrite (ref_to_nonnull o a Hne).
      destruct (decide (o = a)); lia.
Qed.

(** *** The error indicator *)

Lemma indicator_swap_inv ts w u w' :
  (Py_XDECREF (curexc_type (tstate (store w))) ;;
   Py_XDECREF (curexc_value (tstate (store w))) ;;
   Py_XDECREF (curexc_traceback (tstate (store w))))
    (with_store (set_tstate ts (store w)) w) = Returned u w' →
  tstate (store w') = ts ∧ frame w w'.
Proof.
  set (w0 := with_store _ w). rewrite bind_unfold.
  destruct (Py_XDECREF _ w0) as [[] w1| | |] eqn:E1; try done.
  rewrite bind_unfold.
  destruct (Py_XDECREF _ w1) as [[] w2| | |] eqn:E2; try done.
  intros E3.
  apply Py_XDECREF_inv in E1 as [F1 T1], E2 as [F2 T2], E3 as [F3 T3].
  split; [by rewrite T3, T2, T1|].
  eapply frame_trans; [apply (frame_tstate w ts)|].
  eapply frame_trans; [exact F1|]. eapply frame_trans; [exact F2|exact F3].
Qed.

Lemma indicator_swap_exact ts w :
  (∀ a, tstate_refs (store w) a ≤ rc (store w) a) →
  (∀ a, rc (store w) a ≤ PY_SSIZE_T_MAX) →
  ∃ w',
    (Py_XDECREF (curexc_type (tstate (store w))) ;;
     Py_XDECREF (curexc_value (tstate (store w))) ;;
     Py_XDECREF (curexc_traceback (tstate (store w))))
      (with_store (set_tstate ts (store w)) w) = Returned tt w' ∧
    tstate (store w') = ts ∧ frame w w' ∧
    ∀ a, rc (store w') a = rc (store w) a - tstate_refs (store w) a.
Proof.
  intros Hc Hb. set (w0 := with_store _ w).
  set (ot := curexc_type (tstate (store w))).
  set (ov := curexc_value (tstate (store w))).
  set (otb := curexc_traceback (tstate (store w))).
  assert (∀ a, tstate_refs (store w) a
               = ref_to ot a + ref_to ov a + ref_to otb a) as Ht by done.
  assert (∀ a, rc (store w0) a = rc (store w) a) as R0 by done.
  assert (∀ o, o = NULL ∨ ref_to o o = 1) as Hself.
  { intros o. destruct (decide (o = NULL)); [by left|right].
    by apply ref_to_self. }
  destruct (Py_XDECREF_exact ot w0) as (w1 & E1 & M1).
  { destruct (Hself ot) as [?|Hs]; [by left|right]. rewrite R0.
    specialize (Hc ot). specialize (Hb ot). rewrite Ht in Hc.
    pose proof (ref_to_range ov ot). pose proof (ref_to_range otb ot). lia. }
  destruct (Py_XDECREF_exact ov w1) as (w2 & E2 & M2).
  { destruct (Hself ov) as [?|Hs]; [by left|right].
    rewrite (cm_rc _ _ _ M1), R0.
    specialize (Hc ov). specialize (Hb ov). rewrite Ht in Hc.
    pose proof (ref_to_range ot ov). pose proof (ref_to_range otb ov). lia. }
  destruct (Py_XDECREF_exact otb w2) as (w3 & E3 & M3).
  { destruct (Hself otb) as [?|Hs]; [by left|right].
    rewrite (cm_rc _ _ _ M2), (cm_rc _ _ _ M1), R0.
    specialize (Hc otb). specialize (Hb otb). rewrite Ht in Hc.
    pose proof (ref_to_range ot otb). pose proof (ref_to_range ov otb). lia. }
  exists w3. rewrite bind_unfold, E1, bind_unfold, E2.
  split; [exact E3|]. split.
  { by rewrite (cm_tstate _ _ _ M3), (cm_tstate _ _ _ M2),
      (cm_tstate _ _ _ M1). }
  split.
  { eapply frame_trans; [apply (frame_tstate w ts)|].
    eapply frame_trans; [apply M1|].
    eapply frame_trans; [apply M2|apply M3]. }
  intros a.
  rewrite (cm_rc _ _ _ M3), (cm_rc _ _ _ M2), (cm_rc _ _ _ M1), R0, Ht.
  lia.
Qed.

Lemma tstate_refs_ext s s' a :
  tstate s' = tstate s → tstate_refs s' a = tstate_refs s a.
Proof. unfold tstate_refs. by intros ->. Qed.

Lemma checked_traceback_NULL s :
  checked_traceback PyTraceBack_Type s NULL = NULL.
Proof. done. Qed.

Lemma checked_traceback_same s tb :
  tb = NULL ∨
  (∃ h, heap s !! tb = Some h ∧ ob_type h = PyTraceBack_Type) →
  checked_traceback PyTraceBack_Type s tb = tb.
Proof.
  unfold checked_traceback. intros [->|(h & -> & <-)]; [done|].
  destruct (tb =? NULL)%N eqn:E; [by apply N.eqb_eq in E|].
  by rewrite N.eqb_refl.
Qed.

Lemma checked_traceback_dropped s tb :
  tb ≠ NULL →
  (∀ h, heap s !! tb = Some h → ob_type h ≠ PyTraceBack_Type) →
  checked_traceback PyTraceBack_Type s tb = NULL.
Proof.
  unfold checked_traceback. intros Hne Hty.
  destruct (tb =? NULL)%N; [done|].
  destruct (heap s !! tb) as [h|]; [|done].
  destruct (N.eqb_spec (ob_type h) PyTraceBack_Type) as [E|]; [|done].
  by destruct (Hty h eq_refl).
Qed.

Lemma checked_traceback_frame w w' tb :
  frame w w' → is_Some (heap (store w') !! tb) →
  checked_traceback PyTraceBack_Type (store w') tb
  = checked_traceback PyTraceBack_Type (store w) tb.
Proof.
  intros F [h' Hh']. destruct (fr_survivor _ _ F tb h' Hh') as (h & Hh & E).
  unfold checked_traceback. by rewrite Hh, Hh', E.
Qed.

Lemma PyErr_Restore_inv t v tb w u w' :
  PyErr_Restore PyTraceBack_Type t v tb w = Returned u w' →
  tstate (store w') =
  mkTState t v (checked_traceback PyTraceBack_Type (store w) tb) ∧
  frame w w'.
Proof.
  unfold PyErr_Restore, checked_traceback. rewrite bind_unfold.
  destruct (N.eqb_spec tb NULL) as [->|Hne]; simpl.
  { intros H. by apply indicator_swap_inv in H. }
  rewrite bind_unfold. unfold Py_TYPE.
  destruct (heap (store w) !! tb) as [h|] eqn:Hh; [|done].
  destruct (N.eqb_spec (ob_type h) PyTraceBack_Type) as [Ht|Ht]; simpl.
  { intros H. by apply indicator_swap_inv in H. }
  rewrite bind_unfold.
  destruct (Py_DECREF tb w) as [[] w1| | |] eqn:E1; try done.
  apply Py_DECREF_inv in E1 as (_ & F1 & T1).
  unfold mret, M_ret. intros H. apply indicator_swap_inv in H as [T F].
  split; [done|]. by eapply frame_trans.
Qed.

Lemma PyErr_Restore_exact t v tb w :
  (∀ a, tstate_refs (store w) a + ref_to tb a ≤ rc (store w) a) →
  (∀ a, rc (store w) a ≤ PY_SSIZE_T_MAX) →
  ∃ w',
    PyErr_Restore PyTraceBack_Type t v tb w = Returned tt w' ∧
    tstate (store w') =
    mkTState t v (checked_traceback PyTraceBack_Type (store w) tb) ∧
    frame w w' ∧
    ∀ a, rc (store w') a =
         rc (store w) a
         - (ref_to tb a
            - ref_to (checked_traceback PyTraceBack_Type (store w) tb) a)
         - tstate_refs (store w) a.
Proof.
  intros Hc Hb.
  assert (∀ a, tstate_refs (store w) a ≤ rc (store w) a) as Hc0.
  { intros a. specialize (Hc a). pose proof (ref_to_range tb a). lia. }
  unfold PyErr_Restore, checked_traceback. rewrite bind_unfold.
  destruct (N.eqb_spec tb NULL) as [->|Hne]; simpl.
  { destruct (indicator_swap_exact (mkTState t v NULL) w Hc0 Hb)
      as (w' & E & T & F & R).
    exists w'. split; [done|]. split; [done|]. split; [done|].
    intros a. rewrite R. lia. }
  rewrite bind_unfold. unfold Py_TYPE.
  assert (1 ≤ rc (store w) tb) as Htb.
  { specialize (Hc tb). rewrite ref_to_self in Hc by done.
    pose proof (ref_to_range (curexc_type (tstate (store w))) tb).
    pose proof (ref_to_range (curexc_value (tstate (store w))) tb).
    pose proof (ref_to_range (curexc_traceback (tstate (store w))) tb).
    unfold tstate_refs in Hc. lia. }
  destruct (rc_mapped (store w) tb) as [h Hh]; [lia|]. rewrite Hh.
  destruct (N.eqb_spec (ob_type h) PyTraceBack_Type) as [Ht|Ht]; simpl.
  { destruct (indicator_swap_exact (mkTState t v tb) w Hc0 Hb)
      as (w' & E & T & F & R).
    exists w'. split; [done|]. split; [done|]. split; [done|].
    intros a. rewrite R. lia. }
  rewrite bind_unfold.
  destruct (Py_DECREF_exact tb w) as (w1 & E1 & M1);
    [split; [done|apply Hb]|].
  rewrite E1. unfold mret, M_ret.
  destruct (indicator_swap_exact (mkTState t v NULL) w1)
    as (w' & E & T & F & R).
  { intros a. rewrite (tstate_refs_ext _ _ a (cm_tstate _ _ _ M1)).
    rewrite (cm_rc _ _ _ M1). specialize (Hc a).
    rewrite (ref_to_nonnull tb a Hne) in Hc.
    destruct (decide (tb = a)); lia. }
  { intros a. rewrite (cm_rc _ _ _ M1). specialize (Hb a).
    destruct (decide (tb = a)); lia. }
  exists w'. split; [done|]. split; [done|].
  split; [eapply frame_trans; [apply M1|exact F]|].
  intros a. rewrite R, (tstate_refs_ext _ _ a (cm_tstate _ _ _ M1)).
  rewrite (cm_rc _ _ _ M1), ref_to_NULL, (ref_to_nonnull tb a Hne).
  destruct (decide (tb = a)); lia.
Qed.

(** *** assertObject *)

Lemma assertObject_inv value w u w' :
  assertObject value w = Returned u w' →
  w' = w ∧ is_live (store w) value = true.
Proof.
  unfold assertObject, is_live.
  destruct (value =? NULL)%N; [done|].
  destruct (heap (store w) !! value) as [h|]; [|done].
  destruct (0 <? ob_refcnt h); [|done]. by intros [= <- <-].
Qed.

Lemma assertObject_live value w :
  is_live (store w) value = true → assertObject value w = Returned tt w.
Proof.
  unfold assertObject, is_live.
  destruct (value =? NULL)%N; [done|].
  destruct (heap (store w) !! value) as [h|]; [|done].
  by destruct (0 <? ob_refcnt h).
Qed.

(** *** Outcomes of the primitives *)

Lemma assertObject_plain value w : plain (assertObject value w).
Proof. unfold assertObject. by repeat case_match. Qed.

Lemma Py_INCREF_plain o w : plain (Py_INCREF o w).
Proof. unfold Py_INCREF. by case_match. Qed.

Lemma Py_XINCREF_plain o w : plain (Py_XINCREF o w).
Proof. unfold Py_XINCREF. case_match; [done|apply Py_INCREF_plain]. Qed.

Lemma Py_DECREF_plain o w : plain (Py_DECREF o w).
Proof. unfold Py_DECREF, _Py_Dealloc. by repeat case_match. Qed.

Lemma Py_XDECREF_plain o w : plain (Py_XDECREF o w).
Proof. unfold Py_XDECREF. case_match; [done|apply Py_DECREF_plain]. Qed.

Lemma Py_TYPE_plain o w : plain (Py_TYPE o w).
Proof. unfold Py_TYPE. by case_match. Qed.

Lemma bind_plain {A B} (m : M A) (f : A → M B) w :
  plain (m w) → (∀ a w', plain (f a w')) → plain ((m ≫= f) w).
Proof. intros Hm Hf. rewrite bind_unfold. destruct (m w); done || apply Hf. Qed.

Lemma PyErr_Restore_plain t v tb w :
  plain (PyErr_Restore PyTraceBack_Type t v tb w).
Proof.
  unfold PyErr_Restore. apply bind_plain.
  - case_match; [|done]. apply bind_plain; [apply Py_TYPE_plain|intros ty ?].
    case_match; [|done]. apply bind_plain; [apply Py_DECREF_plain|done].
  - intros tb' w'. cbv beta zeta.
    apply bind_plain; [apply Py_XDECREF_plain|intros _ ?].
    apply bind_plain; [apply Py_XDECREF_plain|intros _ ?].
    apply Py_XDECREF_plain.
Qed.

Lemma Py_INCREF_mapped o w u w' a :
  Py_INCREF o w = Returned u w' →
  is_Some (heap (store w) !! a) → is_Some (heap (store w') !! a).
Proof.
  unfold Py_INCREF. destruct (heap (store w) !! o) as [h|] eqn:Hh; [|done].
  intros [= <- <-] Ha. simpl. rewrite lookup_insert.
  destruct (decide (o = a)); [eauto|done].
Qed.

Lemma Py_XINCREF_mapped o w u w' a :
  Py_XINCREF o w = Returned u w' →
  is_Some (heap (store w) !! a) → is_Some (heap (store w') !! a).
Proof.
  unfold Py_XINCREF. destruct (o =? NULL)%N.
  - by intros [= <- <-].
  - apply Py_INCREF_mapped.
Qed.

Lemma Py_XINCREF_self o w u w' :
  Py_XINCREF o w = Returned u w' → o ≠ NULL →
  is_Some (heap (store w) !! o).
Proof.
  unfold Py_XINCREF. destruct (N.eqb_spec o NULL) as [|_]; [done|].
  intros H _. by apply Py_INCREF_inv in H as (? & _).
Qed.

Lemma bind_load_bind {A B C} g (field : Nuitka_GeneratorObject → A)
    (k : A → M B) (f : B → M C) w G :
  gens (store w) !! g = Some G →
  ((load g field ≫= k) ≫= f) w = (k (field G) ≫= f) w.
Proof.
  intros HG. rewrite (bind_unfold (load g field ≫= k)).
  by rewrite (load_Some _ _ _ _ G).
Qed.

Lemma bind_congr {A B} (m : M A) (f f' : A → M B) w :
  (∀ a w', m w = Returned a w' → f a w' = f' a w') →
  (m ≫= f) w = (m ≫= f') w.
Proof. intros H. rewrite !bind_unfold. destruct (m w); eauto. Qed.

(** ** CHECK_EXCEPTION *)

Lemma CHECK_EXCEPTION_null g G w :
  gens (store w) !! g = Some G →
  m_exception_type G = NULL →
  CHECK_EXCEPTION PyTraceBack_Type g w = Returned tt w.
Proof.
  intros HG Hn. unfold CHECK_EXCEPTION.
  rewrite (load_Some _ _ _ _ G) by done. by rewrite Hn.
Qed.

Lemma CHECK_EXCEPTION_undefined g w :
  gens (store w) !! g = None →
  CHECK_EXCEPTION PyTraceBack_Type g w = Aborted UndefinedBehaviour w.
Proof. intros HG. unfold CHECK_EXCEPTION. by rewrite load_None. Qed.

(** The raise, once the assertion has passed: the three references are
    acquired, then the error is restored, the kind reset and the exception
    thrown. *)
Lemma CHECK_EXCEPTION_unfold g G w :
  gens (store w) !! g = Some G →
  is_live (store w) (m_exception_type G) = true →
  CHECK_EXCEPTION PyTraceBack_Type g w =
  (Py_INCREF (m_exception_type G) ;;
   Py_XINCREF (m_exception_value G) ;;
   Py_XINCREF (m_exception_tb G) ;;
   PyErr_Restore PyTraceBack_Type (m_exception_type G) (m_exception_value G)
     (m_exception_tb G) ;;
   assign g (set_m_exception_type NULL) ;;
   throw_PythonException) w.
Proof.
  intros HG Hlive. pose proof Hlive as [Hne _]%is_live_spec.
  unfold CHECK_EXCEPTION.
  rewrite (load_Some _ _ _ _ G) by done.
  destruct (N.eqb_spec (m_exception_type G) NULL) as [?|_]; [done|]. simpl.
  rewrite (bind_load_bind _ _ _ _ _ G), bind_unfold, assertObject_live by done.
  rewrite (bind_load_bind _ _ _ _ _ G) by done.
  apply bind_congr. intros [] w1 E1.
  pose proof (Py_INCREF_inv _ _ _ _ E1) as (_ & F1 & _).
  assert (gens (store w1) !! g = Some G) as HG1
    by by rewrite (fr_gens _ _ F1).
  rewrite (bind_load_bind _ _ _ _ _ G) by done.
  apply bind_congr. intros [] w2 E2.
  pose proof (Py_XINCREF_inv _ _ _ _ E2) as (F2 & _).
  assert (gens (store w2) !! g = Some G) as HG2
    by by rewrite (fr_gens _ _ F2).
  rewrite (bind_load_bind _ _ _ _ _ G) by done.
  apply bind_congr. intros [] w3 E3.
  pose proof (Py_XINCREF_inv _ _ _ _ E3) as (F3 & _).
  assert (gens (store w3) !! g = Some G) as HG3
    by by rewrite (fr_gens _ _ F3).
  rewrite (bind_load_bind _ _ _ _ _ G) by done.
  rewrite (bind_load_bind _ _ _ _ _ G) by done.
  by rewrite (bind_load_bind _ _ _ _ _ G) by done.
Qed.

Lemma CHECK_EXCEPTION_populated g G w :
  gens (store w) !! g = Some G →
  m_exception_type G ≠ NULL →
  (∃ why w', CHECK_EXCEPTION PyTraceBack_Type g w = Aborted why w') ∨
  (∃ w', CHECK_EXCEPTION PyTraceBack_Type g w = Thrown w' ∧
         raised PyTraceBack_Type g G w w').
Proof.
  intros HG Hne.
  destruct (is_live (store w) (m_exception_type G)) eqn:Hlive; cycle 1.
  { left. unfold CHECK_EXCEPTION.
    rewrite (load_Some _ _ _ _ G) by done.
    destruct (N.eqb_spec (m_exception_type G) NULL) as [?|_]; [done|]. simpl.
    rewrite bind_unfold, (load_Some _ _ _ _ G) by done.
    destruct (assertObject _ w) as [[] w0| | |] eqn:E0; eauto.
    - apply assertObject_inv in E0 as [_ ?]. congruence.
    - by pose proof (assertObject_plain (m_exception_type G) w) as Hp;
        rewrite E0 in Hp.
    - by pose proof (assertObject_plain (m_exception_type G) w) as Hp;
        rewrite E0 in Hp. }
  rewrite (CHECK_EXCEPTION_unfold g G w HG Hlive).
  (* Py_INCREF( generator->m_exception_type ) *)
  rewrite bind_unfold.
  destruct (Py_INCREF _ w) as [[] w1| | |] eqn:E1; eauto;
    try (by pose proof (Py_INCREF_plain (m_exception_type G) w) as Hp;
         rewrite E1 in Hp).
  pose proof (Py_INCREF_inv _ _ _ _ E1) as (_ & F1 & T1).
  (* Py_XINCREF( generator->m_exception_value ) *)
  rewrite bind_unfold.
  destruct (Py_XINCREF _ w1) as [[] w2| | |] eqn:E2; eauto;
    try (by pose proof (Py_XINCREF_plain (m_exception_value G) w1) as Hp;
         rewrite E2 in Hp).
  pose proof (Py_XINCREF_inv _ _ _ _ E2) as (F2 & T2).
  (* Py_XINCREF( generator->m_exception_tb ) *)
  rewrite bind_unfold.
  destruct (Py_XINCREF _ w2) as [[] w3| | |] eqn:E3; eauto;
    try (by pose proof (Py_XINCREF_plain (m_exception_tb G) w2) as Hp;
         rewrite E3 in Hp).
  pose proof (Py_XINCREF_inv _ _ _ _ E3) as (F3 & T3).
  pose proof (frame_trans _ _ _ (frame_trans _ _ _ F1 F2) F3) as F123.
  (* PyErr_Restore( ... ) *)
  rewrite bind_unfold.
  destruct (PyErr_Restore _ _ _ _ w3) as [[] w4| | |] eqn:E4; eauto;
    try (by pose proof (PyErr_Restore_plain (m_exception_type G)
              (m_exception_value G) (m_exception_tb G) w3) as Hp;
         rewrite E4 in Hp).
  apply PyErr_Restore_inv in E4 as [T4 F4].
  (* generator->m_exception_type = NULL; throw *)
  rewrite bind_unfold. unfold assign.
  assert (gens (store w4) !! g = Some G) as HG4
    by by rewrite (fr_gens _ _ F4), (fr_gens _ _ F123).
  rewrite HG4. right. eexists. split; [reflexivity|].
  pose proof (frame_trans _ _ _ F123 F4) as F.
  split.
  - done.
  - simpl. by rewrite (fr_gens _ _ F).
  - simpl. rewrite T4. f_equal.
    destruct (decide (m_exception_tb G = NULL)) as [->|Htb]; [done|].
    apply checked_traceback_frame; [done|].
    eapply Py_XINCREF_mapped; [exact E3|].
    by eapply Py_XINCREF_self.
  - simpl. by rewrite (fr_tp_base _ _ F).
  - simpl. by rewrite (fr_switches _ _ F).
  - simpl. apply (fr_survivor _ _ F).
Qed.

Lemma CHECK_EXCEPTION_acquires g G w :
  is_live (store w) (m_exception_type G) = true →
  raise_defined (store w) g G →
  ∃ w3,
    (Py_INCREF (m_exception_type G) ;;
     Py_XINCREF (m_exception_value G) ;;
     Py_XINCREF (m_exception_tb G)) w = Returned tt w3 ∧
    counts_moved (slot_refs G) w w3.
Proof.
  intros Hlive (Vv & Vtb & Hic & Hb & _).
  pose proof PY_SSIZE_T_MAX_pos as [_ Hmin].
  apply is_live_rc in Hlive as [Hne Hrc].
  assert (∀ o, null_or_live (store w) o → o = NULL ∨ 0 < rc (store w) o)
    as Hnl.
  { intros o [->|Hl]; [by left|right]. by apply is_live_rc in Hl as [_ ?]. }
  destruct (Py_INCREF_exact (m_exception_type G) w) as (w1 & E1 & M1).
  { apply rc_mapped. lia. }
  { specialize (Hb (m_exception_type G)). lia. }
  destruct (Py_XINCREF_exact (m_exception_value G) w1) as (w2 & E2 & M2).
  { destruct (Hnl _ Vv) as [?|Hv]; [by left|right].
    pose proof (cm_rc _ _ _ M1 (m_exception_value G)) as R.
    specialize (Hb (m_exception_value G)). cbv beta in R.
    destruct (decide (m_exception_type G = m_exception_value G));
      (split; [apply rc_mapped|]; lia). }
  destruct (Py_XINCREF_exact (m_exception_tb G) w2) as (w3 & E3 & M3).
  { destruct (Hnl _ Vtb) as [?|Hv]; [by left|right].
    pose proof (cm_rc _ _ _ M2 (m_exception_tb G)) as R2.
    pose proof (cm_rc _ _ _ M1 (m_exception_tb G)) as R1.
    pose proof (ref_to_range (m_exception_value G) (m_exception_tb G)).
    specialize (Hb (m_exception_tb G)). cbv beta in R1, R2.
    destruct (decide (m_exception_type G = m_exception_tb G));
      (split; [apply rc_mapped|]; lia). }
  exists w3. rewrite bind_unfold, E1, bind_unfold, E2. split; [done|].
  eapply counts_moved_ext;
    [|exact (counts_moved_trans _ _ _ _ _
               (counts_moved_trans _ _ _ _ _ M1 M2) M3)].
  intros a. unfold slot_refs.
  rewrite (ref_to_nonnull (m_exception_type G) a Hne). lia.
Qed.

(** The references acquired, the rest of the raise goes on from there. *)
Lemma CHECK_EXCEPTION_hands_over g G w w3 :
  gens (store w) !! g = Some G →
  is_live (store w) (m_exception_type G) = true →
  (Py_INCREF (m_exception_type G) ;;
   Py_XINCREF (m_exception_value G) ;;
   Py_XINCREF (m_exception_tb G)) w = Returned tt w3 →
  CHECK_EXCEPTION PyTraceBack_Type g w =
  (PyErr_Restore PyTraceBack_Type (m_exception_type G) (m_exception_value G)
     (m_exception_tb G) ;;
   assign g (set_m_exception_type NULL) ;;
   throw_PythonException) w3.
Proof.
  intros HG Hlive. rewrite (CHECK_EXCEPTION_unfold g G w HG Hlive).
  rewrite !(bind_unfold (Py_INCREF _)).
  destruct (Py_INCREF _ w) as [[] w1| | |]; try done.
  rewrite !(bind_unfold (Py_XINCREF (m_exception_value G))).
  destruct (Py_XINCREF _ w1) as [[] w2| | |]; try done.
  intros E3. by rewrite bind_unfold, E3.
Qed.

Lemma CHECK_EXCEPTION_raises g G w :
  gens (store w) !! g = Some G →
  is_live (store w) (m_exception_type G) = true →
  raise_defined (store w) g G →
  ∃ w', CHECK_EXCEPTION PyTraceBack_Type g w = Thrown w' ∧
        raised PyTraceBack_Type g G w w' ∧
        (∀ a, rc (store w') a =
              rc (store w) a
              + ref_to (m_exception_type G) a
              + ref_to (m_exception_value G) a
              + ref_to (checked_traceback PyTraceBack_Type (store w)
                          (m_exception_tb G)) a
              - tstate_refs (store w) a) ∧
        is_Some (heap (store w') !! g).
Proof.
  intros HG Hlive Hdef.
  pose proof Hlive as [Hne _]%is_live_spec.
  destruct (CHECK_EXCEPTION_acquires g G w Hlive Hdef) as (w3 & E3 & M3).
  destruct Hdef as (Vv & Vtb & Hic & Hb & Hkept).
  destruct (PyErr_Restore_exact (m_exception_type G) (m_exception_value G)
              (m_exception_tb G) w3) as (w4 & E4 & T4 & F4 & R4).
  { intros a. rewrite (tstate_refs_ext _ _ a (cm_tstate _ _ _ M3)).
    rewrite (cm_rc _ _ _ M3). unfold slot_refs. specialize (Hic a).
    pose proof (ref_to_range (m_exception_type G) a).
    pose proof (ref_to_range (m_exception_value G) a). lia. }
  { intros a. rewrite (cm_rc _ _ _ M3). unfold slot_refs. specialize (Hb a).
    pose proof (ref_to_range (m_exception_type G) a).
    pose proof (ref_to_range (m_exception_value G) a).
    pose proof (ref_to_range (m_exception_tb G) a). lia. }
  assert (CHECK_EXCEPTION PyTraceBack_Type g w =
          Thrown (with_store
                    (set_gens (<[g := set_m_exception_type NULL G]>
                                 (gens (store w4))) (store w4)) w4)) as E.
  { rewrite (CHECK_EXCEPTION_hands_over g G w w3 HG Hlive E3).
    rewrite bind_unfold, E4, bind_unfold. unfold assign.
    assert (gens (store w4) !! g = Some G) as ->; [|done].
    by rewrite (fr_gens _ _ F4), (fr_gens _ _ (cm_frame _ _ _ M3)). }
  destruct (CHECK_EXCEPTION_populated g G w HG Hne)
    as [(why & w' & Hab)|(w' & Hth & Hr)]; [congruence|].
  exists w'. split; [done|]. split; [done|].
  rewrite E in Hth. injection Hth as <-.
  assert (∀ a, rc (store w4) a =
               rc (store w) a
               + ref_to (m_exception_type G) a
               + ref_to (m_exception_value G) a
               + ref_to (checked_traceback PyTraceBack_Type (store w)
                           (m_exception_tb G)) a
               - tstate_refs (store w) a) as Hrc.
  { intros a.
    rewrite R4, (tstate_refs_ext _ _ a (cm_tstate _ _ _ M3)).
    rewrite (cm_rc _ _ _ M3). unfold slot_refs.
    assert (checked_traceback PyTraceBack_Type (store w3) (m_exception_tb G)
            = checked_traceback PyTraceBack_Type (store w)
                (m_exception_tb G)) as ->; [|lia].
    destruct (decide (m_exception_tb G = NULL)) as [->|Htb]; [done|].
    apply checked_traceback_frame; [apply M3|].
    apply rc_mapped. rewrite (cm_rc _ _ _ M3). unfold slot_refs.
    destruct Vtb as [?|Hl]; [done|]. apply is_live_rc in Hl as [_ ?].
    pose proof (ref_to_range (m_exception_type G) (m_exception_tb G)).
    pose proof (ref_to_range (m_exception_value G) (m_exception_tb G)).
    pose proof (ref_to_range (m_exception_tb G) (m_exception_tb G)). lia. }
  split; [exact Hrc|].
  change (is_Some (heap (store w4) !! g)). apply rc_mapped.
  specialize (Hrc g). unfold generator_kept in Hkept.
  pose proof (ref_to_range (m_exception_type G) g).
  pose proof (ref_to_range (m_exception_value G) g).
  pose proof (ref_to_range (checked_traceback PyTraceBack_Type (store w)
                              (m_exception_tb G)) g). lia.
Qed.

Lemma CHECK_EXCEPTION_dead g G w h :
  gens (store w) !! g = Some G →
  m_exception_type G ≠ NULL →
  heap (store w) !! m_exception_type G = Some h →
  ob_refcnt h ≤ 0 →
  CHECK_EXCEPTION PyTraceBack_Type g w = Aborted AssertionFailure w.
Proof.
  intros HG Hne Hh Hrc. unfold CHECK_EXCEPTION.
  rewrite (load_Some _ _ _ _ G) by done.
  destruct (N.eqb_spec (m_exception_type G) NULL) as [?|_]; [done|]. simpl.
  rewrite bind_unfold, (load_Some _ _ _ _ G) by done.
  unfold assertObject.
  destruct (N.eqb_spec (m_exception_type G) NULL) as [?|_]; [done|].
  rewrite Hh. destruct (Z.ltb_spec 0 (ob_refcnt h)); [lia|done].
Qed.

Lemma CHECK_EXCEPTION_Returned g w u w' :
  CHECK_EXCEPTION PyTraceBack_Type g w = Returned u w' →
  w' = w ∧ ∃ G, gens (store w) !! g = Some G ∧ m_exception_type G = NULL.
Proof.
  intros H. destruct (gens (store w) !! g) as [G|] eqn:HG.
  - destruct (decide (m_exception_type G = NULL)) as [Hn|Hne].
    + rewrite (CHECK_EXCEPTION_null g G) in H by done.
      injection H as <- <-. eauto.
    + destruct (CHECK_EXCEPTION_populated g G w HG Hne)
        as [(? & ? & E)|(? & E & _)]; congruence.
  - rewrite CHECK_EXCEPTION_undefined in H; done.
Qed.

Lemma CHECK_EXCEPTION_Thrown g w w' :
  CHECK_EXCEPTION PyTraceBack_Type g w = Thrown w' →
  ∃ G, gens (store w) !! g = Some G ∧ m_exception_type G ≠ NULL ∧
       raised PyTraceBack_Type g G w w'.
Proof.
  intros H. destruct (gens (store w) !! g) as [G|] eqn:HG.
  - destruct (decide (m_exception_type G = NULL)) as [Hn|Hne].
    + rewrite (CHECK_EXCEPTION_null g G) in H; done.
    + destruct (CHECK_EXCEPTION_populated g G w HG Hne)
        as [(? & ? & E)|(w'' & E & Hr)]; [congruence|].
      rewrite E in H. injection H as <-. eauto.
  - rewrite CHECK_EXCEPTION_undefined in H; done.
Qed.
(** ** YIELD_VALUE *)

Section Hand_off.

Variable caller : list Switch → Store → option Store.

Lemma YIELD_VALUE_unfold g G value w :
  gens (store w) !! g = Some G →
  is_live (store w) value = true →
  YIELD_VALUE PyTraceBack_Type caller g value w =
  match caller (yielded_switches g value G w)
               (yielded_store g value G (store w)) with
  | Some s' =>
      (CHECK_EXCEPTION PyTraceBack_Type g ;; load g m_yielded)
        (mkWorld s' (yielded_switches g value G w))
  | None =>
      Suspended (mkWorld (yielded_store g value G (store w))
                         (yielded_switches g value G w))
  end.
Proof.
  intros HG Hlive. unfold YIELD_VALUE.
  rewrite bind_unfold, assertObject_live by done.
  rewrite bind_unfold. unfold assign at 1. rewrite HG.
  set (w1 := with_store _ w).
  assert (gens (store w1) !! g = Some (set_m_yielded value G)) as HG1
    by (simpl; apply lookup_insert_eq).
  rewrite bind_unfold. unfold swapFiber. cbn [fr_generator fr_field].
  rewrite (load_Some _ _ _ _ _ HG1), (load_Some _ _ _ _ _ HG1).
  rewrite bind_unfold. unfold assign. rewrite HG1. subst w1. simpl.
  rewrite insert_insert_eq.
  fold (yielded_store g value G (store w)).
  fold (yielded_switches g value G w).
  by destruct (caller _ _).
Qed.

Lemma YIELD_VALUE_not_live g value w :
  is_live (store w) value = false →
  ∃ why, YIELD_VALUE PyTraceBack_Type caller g value w = Aborted why w.
Proof.
  intros Hd. unfold YIELD_VALUE. rewrite bind_unfold.
  destruct (assertObject value w) as [[] w'| | |] eqn:E.
  - apply assertObject_inv in E as [_ E]. congruence.
  - by pose proof (assertObject_plain value w) as Hp; rewrite E in Hp.
  - exists why. f_equal. revert E. unfold assertObject.
    repeat case_match; congruence.
  - by pose proof (assertObject_plain value w) as Hp; rewrite E in Hp.
Qed.

Lemma YIELD_VALUE_undefined g value w :
  gens (store w) !! g = None →
  ∃ why, YIELD_VALUE PyTraceBack_Type caller g value w = Aborted why w.
Proof.
  intros HG. unfold YIELD_VALUE. rewrite bind_unfold.
  destruct (assertObject value w) as [[] w'| | |] eqn:E.
  - apply assertObject_inv in E as [-> _].
    rewrite bind_unfold. unfold assign. rewrite HG. eauto.
  - by pose proof (assertObject_plain value w) as Hp; rewrite E in Hp.
  - exists why. f_equal. revert E. unfold assertObject.
    repeat case_match; congruence.
  - by pose proof (assertObject_plain value w) as Hp; rewrite E in Hp.
Qed.

End Hand_off.

(** ** What the operations leave alone *)

Lemma slots_apart_refl G : slots_apart G G.
Proof. by destruct G. Qed.

Lemma slots_apart_trans G1 G2 G3 :
  slots_apart G1 G2 → slots_apart G2 G3 → slots_apart G1 G3.
Proof.
  unfold slots_apart. intros H12 H23. rewrite H23 at 1. rewrite H12 at 1.
  by destruct G1.
Qed.

Lemma slots_apart_field {A} (field : Nuitka_GeneratorObject → A) G G' :
  (∀ v G, field (set_m_yielded v G) = field G) →
  (∀ v G, field (set_m_exception_type v G) = field G) →
  (∀ c G, field (set_m_yielder_context c G) = field G) →
  slots_apart G G' → field G' = field G.
Proof. intros Hy He Hc ->. by rewrite Hc, Hy, He. Qed.

Lemma silent_refl w : silent w w.
Proof.
  repeat split. intros g. destruct (gens (store w) !! g); [|done].
  apply slots_apart_refl.
Qed.

Lemma silent_trans w1 w2 w3 : silent w1 w2 → silent w2 w3 → silent w1 w3.
Proof.
  intros (Hs1 & Hb1 & Hg1) (Hs2 & Hb2 & Hg2).
  split; [congruence|]. split; [congruence|].
  intros g. specialize (Hg1 g). specialize (Hg2 g).
  destruct (gens (store w1) !! g), (gens (store w2) !! g),
    (gens (store w3) !! g); try done.
  by eapply slots_apart_trans.
Qed.

Lemma silent_same_gens w w' :
  gens (store w') = gens (store w) → switches w' = switches w →
  tp_base (store w') = tp_base (store w) → silent w w'.
Proof.
  intros Hg Hs Hb. repeat split; try done. intros g. rewrite Hg.
  destruct (gens (store w) !! g); [|done]. apply slots_apart_refl.
Qed.

Section Preservation.

Context {P : World → World → Prop}.
Hypothesis P_refl : ∀ w, P w w.
Hypothesis P_trans : ∀ w1 w2 w3, P w1 w2 → P w2 w3 → P w1 w3.

Lemma preserves_ret {A} (a : A) : preserves P (mret a).
Proof. intros w. apply P_refl. Qed.

Lemma preserves_bind {A B} (m : M A) (f : A → M B) :
  preserves P m → (∀ a, preserves P (f a)) → preserves P (m ≫= f).
Proof.
  intros Hm Hf w. rewrite bind_unfold. specialize (Hm w).
  destruct (m w) as [a w'| | |]; simpl in *; try done.
  eapply P_trans; [exact Hm|apply Hf].
Qed.

Lemma preserves_load {A} g (field : Nuitka_GeneratorObject → A) :
  preserves P (load g field).
Proof. intros w. unfold load. destruct (gens (store w) !! g); apply P_refl. Qed.

Lemma preserves_throw {A} : preserves P (@throw_PythonException A).
Proof. intros w. apply P_refl. Qed.

End Preservation.

Lemma preserves_assertObject value : preserves silent (assertObject value).
Proof.
  intros w. unfold assertObject. repeat case_match; apply silent_refl.
Qed.

Lemma preserves_Py_INCREF o : preserves silent (Py_INCREF o).
Proof.
  intros w. unfold Py_INCREF.
  case_match; [by apply silent_same_gens|apply silent_refl].
Qed.

Lemma preserves_Py_XINCREF o : preserves silent (Py_XINCREF o).
Proof.
  unfold Py_XINCREF. case_match; [|apply preserves_Py_INCREF].
  intros w. apply silent_refl.
Qed.

Lemma preserves_Py_DECREF o : preserves silent (Py_DECREF o).
Proof.
  intros w. unfold Py_DECREF, _Py_Dealloc.
  case_match; [|apply silent_refl]. cbv zeta.
  case_match; by apply silent_same_gens.
Qed.

Lemma preserves_Py_XDECREF o : preserves silent (Py_XDECREF o).
Proof.
  unfold Py_XDECREF. case_match; [intros w; apply silent_refl|].
  apply preserves_Py_DECREF.
Qed.

Lemma preserves_Py_TYPE object : preserves silent (Py_TYPE object).
Proof. intros w. unfold Py_TYPE. case_match; apply silent_refl. Qed.

Lemma preserves_PyErr_Restore t v tb :
  preserves silent (PyErr_Restore PyTraceBack_Type t v tb).
Proof.
  unfold PyErr_Restore. apply (preserves_bind silent_trans).
  - case_match; [|apply preserves_ret, silent_refl].
    apply (preserves_bind silent_trans); [apply preserves_Py_TYPE|intros ty].
    case_match; [|apply preserves_ret, silent_refl].
    apply (preserves_bind silent_trans); [apply preserves_Py_DECREF|intros _].
    apply preserves_ret, silent_refl.
  - intros tb' w. cbv beta zeta.
    set (w0 := with_store _ w).
    apply (silent_trans w w0); [by apply silent_same_gens|].
    revert w0. apply (preserves_bind silent_trans);
      [apply preserves_Py_XDECREF|intros _].
    apply (preserves_bind silent_trans);
      [apply preserves_Py_XDECREF|intros _].
    apply preserves_Py_XDECREF.
Qed.

Lemma silent_assign g G
    (upd : Nuitka_GeneratorObject → Nuitka_GeneratorObject) w :
  gens (store w) !! g = Some G →
  slots_apart G (upd G) →
  silent w
    (with_store (set_gens (<[g := upd G]> (gens (store w))) (store w)) w).
Proof.
  intros HG Hupd. repeat split; try done. intros g'. simpl.
  destruct (decide (g = g')) as [<-|Hne].
  - by rewrite HG, lookup_insert_eq.
  - rewrite lookup_insert_ne by done.
    destruct (gens (store w) !! g'); [|done]. apply slots_apart_refl.
Qed.

Lemma silent_yielded_store g value G w :
  gens (store w) !! g = Some G →
  silent w (with_store (yielded_store g value G (store w)) w).
Proof.
  intros HG.
  apply (silent_assign g G
           (λ G, set_m_yielder_context (N.succ (m_yielder_context G))
                   (set_m_yielded value G))); [done|].
  by destruct G.
Qed.

Lemma preserves_assign_m_yielded g v :
  preserves silent (assign g (set_m_yielded v)).
Proof.
  intros w. unfold assign.
  destruct (gens (store w) !! g) as [G|] eqn:HG; [|apply silent_refl].
  apply silent_assign; [done|]. by destruct G.
Qed.

Lemma preserves_assign_m_exception_type g v :
  preserves silent (assign g (set_m_exception_type v)).
Proof.
  intros w. unfold assign.
  destruct (gens (store w) !! g) as [G|] eqn:HG; [|apply silent_refl].
  apply silent_assign; [done|]. by destruct G.
Qed.

Lemma preserves_assign_m_yielder_context g c :
  preserves silent (assign g (set_m_yielder_context c)).
Proof.
  intros w. unfold assign.
  destruct (gens (store w) !! g) as [G|] eqn:HG; [|apply silent_refl].
  apply silent_assign; [done|]. by destruct G.
Qed.

Lemma preserves_CHECK_EXCEPTION g :
  preserves silent (CHECK_EXCEPTION PyTraceBack_Type g).
Proof.
  unfold CHECK_EXCEPTION.
  pose proof (@preserves_bind silent silent_trans) as Hb.
  pose proof (@preserves_load silent silent_refl) as Hl.
  apply Hb; [apply Hl|intros t].
  case_match; [|apply preserves_ret, silent_refl].
  repeat first
    [ apply Hl
    | apply preserves_assertObject
    | apply preserves_Py_INCREF
    | apply preserves_Py_XINCREF
    | apply preserves_PyErr_Restore
    | apply preserves_assign_m_exception_type
    | apply preserves_throw, silent_refl
    | apply Hb; [|intros ?] ].
Qed.

Lemma preserves_GetName object :
  preserves silent (Nuitka_Generator_GetName object).
Proof. apply preserves_load, silent_refl. Qed.

Lemma preserves_Check T object :
  preserves silent (Nuitka_Generator_Check T object).
Proof.
  apply (preserves_bind silent_trans); [apply preserves_Py_TYPE|intros t].
  apply preserves_ret, silent_refl.
Qed.

Section Frame.

Variable Nuitka_Generator_Type : addr.
Variable Py_None : addr.
Variable PYTHON_VERSION : Z.
Variable caller : list Switch → Store → option Store.

Context {P : World → World → Prop}.
Hypothesis P_refl : ∀ w, P w w.
Hypothesis P_trans : ∀ w1 w2 w3, P w1 w2 → P w2 w3 → P w1 w3.
Hypothesis P_silent : ∀ w w', silent w w' → P w w'.
Hypothesis P_turn : ∀ w s', caller (switches w) (store w) = Some s' →
                            P w (mkWorld s' (switches w)).
Hypothesis P_log : ∀ w sw, P w (mkWorld (store w) (switches w ++ [sw])).

Lemma preserves_silent {A} (m : M A) : preserves silent m → preserves P m.
Proof. intros Hm w. apply P_silent, Hm. Qed.

Lemma preserves_swapFiber g :
  preserves P (swapFiber caller (mkFiberRef g at_m_yielder_context)
                         (mkFiberRef g at_m_caller_context)).
Proof.
  unfold swapFiber. cbn [fr_generator fr_field set_fiber].
  apply (preserves_bind P_trans); [apply preserves_load, P_refl|intros c].
  apply (preserves_bind P_trans); [apply preserves_load, P_refl|intros _].
  apply (preserves_bind P_trans);
    [apply preserves_silent, preserves_assign_m_yielder_context|intros _].
  intros w. cbv zeta.
  set (sw := mkSwitch _ _ _).
  pose proof (P_log w sw) as Hlog.
  destruct (caller _ _) as [s'|] eqn:E; simpl; [|exact Hlog].
  eapply P_trans; [exact Hlog|]. by apply (P_turn (mkWorld (store w) _)).
Qed.

Lemma preserves_YIELD_VALUE g value :
  preserves P (YIELD_VALUE PyTraceBack_Type caller g value).
Proof.
  unfold YIELD_VALUE.
  apply (preserves_bind P_trans);
    [apply preserves_silent, preserves_assertObject|intros _].
  apply (preserves_bind P_trans);
    [apply preserves_silent, preserves_assign_m_yielded|intros _].
  apply (preserves_bind P_trans); [apply preserves_swapFiber|].
  intros _. apply (preserves_bind P_trans);
    [apply preserves_silent, preserves_CHECK_EXCEPTION|intros _].
  apply preserves_load, P_refl.
Qed.

Lemma preserves_YIELD_RETURN g value :
  preserves P
    (YIELD_RETURN PyTraceBack_Type Py_None PYTHON_VERSION caller g value).
Proof.
  unfold YIELD_RETURN. repeat case_match; try apply preserves_ret, P_refl.
  apply (preserves_bind P_trans); [apply preserves_YIELD_VALUE|intros _].
  apply preserves_ret, P_refl.
Qed.

Lemma preserves_run_op o :
  preserves P (run_op PyTraceBack_Type Nuitka_Generator_Type Py_None
                      PYTHON_VERSION caller o).
Proof.
  destruct o; simpl.
  - apply (preserves_bind P_trans); [apply preserves_YIELD_VALUE|intros _].
    apply preserves_ret, P_refl.
  - apply preserves_YIELD_RETURN.
  - apply preserves_silent, preserves_CHECK_EXCEPTION.
  - apply (preserves_bind P_trans);
      [apply preserves_silent, preserves_GetName|intros _].
    apply preserves_ret, P_refl.
  - apply (preserves_bind P_trans);
      [apply preserves_silent, preserves_Check|intros _].
    apply preserves_ret, P_refl.
Qed.

Lemma preserves_run_ops ops :
  ∀ w, P w (world_of (run_ops PyTraceBack_Type Nuitka_Generator_Type Py_None
                              PYTHON_VERSION caller ops w)).
Proof.
  induction ops as [|o ops IH]; intros w; simpl; [apply P_refl|].
  pose proof (preserves_run_op o w) as Ho.
  destruct (run_op _ _ _ _ _ o w) as [[] w'|w'| |]; simpl in Ho; try done.
  - eapply P_trans; [exact Ho|apply IH].
  - eapply P_trans; [exact Ho|apply IH].
Qed.

End Frame.

(** A field that the header does not assign to follows, over any run of
    operations, whatever order the caller's turns keep it in. *)
Section Field_frame.

Variable Nuitka_Generator_Type : addr.
Variable Py_None : addr.
Variable PYTHON_VERSION : Z.
Variable caller : list Switch → Store → option Store.

Context {A : Type} (field : Nuitka_GeneratorObject → A) (R : relation A).
Hypothesis R_refl : ∀ a, R a a.
Hypothesis R_trans : ∀ a b c, R a b → R b c → R a c.
Hypothesis field_m_yielded : ∀ v G, field (set_m_yielded v G) = field G.
Hypothesis field_m_exception_type :
  ∀ v G, field (set_m_exception_type v G) = field G.
Hypothesis field_m_yielder_context :
  ∀ c G, field (set_m_yielder_context c G) = field G.

Variable g : addr.
Hypothesis caller_R : caller_keeps caller field R g.

Lemma evolves_refl s : evolves field R g s s.
Proof. intros G HG. eauto. Qed.

Lemma evolves_trans s1 s2 s3 :
  evolves field R g s1 s2 → evolves field R g s2 s3 → evolves field R g s1 s3.
Proof.
  intros H12 H23 G1 HG1. destruct (H12 G1 HG1) as (G2 & HG2 & R12).
  destruct (H23 G2 HG2) as (G3 & HG3 & R23). eauto.
Qed.

Lemma evolves_silent w w' :
  silent w w' → evolves field R g (store w) (store w').
Proof.
  intros (_ & _ & Hg) G HG. specialize (Hg g). rewrite HG in Hg.
  destruct (gens (store w') !! g) as [G'|]; [|done].
  exists G'. split; [done|].
  rewrite (slots_apart_field field G G') by done. apply R_refl.
Qed.


Lemma evolves_run_ops ops w :
  evolves field R g (store w)
    (store (world_of (run_ops PyTraceBack_Type Nuitka_Generator_Type Py_None
                              PYTHON_VERSION caller ops w))).
Proof.
  apply (preserves_run_ops Nuitka_Generator_Type Py_None PYTHON_VERSION caller
           (P := λ w w', evolves field R g (store w) (store w'))).
  - intros. apply evolves_refl.
  - intros. by eapply evolves_trans.
  - apply evolves_silent.
  - intros w0 s' E. simpl. by eapply caller_R.
  - intros w0 sw. apply evolves_refl.
Qed.

End Field_frame.

(** ** More on YIELD_VALUE: what follows the switch *)

Lemma after_switch_Returned g G w :
  gens (store w) !! g = Some G →
  m_exception_type G = NULL →
  (CHECK_EXCEPTION PyTraceBack_Type g ;; load g m_yielded) w
  = Returned (m_yielded G) w.
Proof.
  intros HG Hn. rewrite bind_unfold, (CHECK_EXCEPTION_null g G) by done.
  unfold load. by rewrite HG.
Qed.

Lemma after_switch_Thrown g w w' :
  (CHECK_EXCEPTION PyTraceBack_Type g ;; load g m_yielded) w = Thrown w' ↔
  CHECK_EXCEPTION PyTraceBack_Type g w = Thrown w'.
Proof.
  rewrite bind_unfold.
  destruct (CHECK_EXCEPTION PyTraceBack_Type g w) as [[] w1| | |] eqn:E;
    try (split; congruence).
  unfold load. destruct (gens (store w1) !! g); split; congruence.
Qed.

Lemma after_switch_silent g :
  preserves silent (CHECK_EXCEPTION PyTraceBack_Type g ;; load g m_yielded).
Proof.
  apply (preserves_bind silent_trans); [apply preserves_CHECK_EXCEPTION|].
  intros _. apply preserves_load, silent_refl.
Qed.

Lemma yielded_store_lookup g value G s :
  gens (yielded_store g value G s) !! g =
  Some (set_m_yielder_context (N.succ (m_yielder_context G))
          (set_m_yielded value G)).
Proof. apply lookup_insert_eq. Qed.

Section Hand_off_more.

Variable caller : list Switch → Store → option Store.

Lemma YIELD_VALUE_Thrown g value w w' :
  YIELD_VALUE PyTraceBack_Type caller g value w = Thrown w' →
  ∃ G s2, gens (store w) !! g = Some G ∧
          is_live (store w) value = true ∧
          caller (yielded_switches g value G w)
                 (yielded_store g value G (store w)) = Some s2 ∧
          CHECK_EXCEPTION PyTraceBack_Type g
            (mkWorld s2 (yielded_switches g value G w))
          = Thrown w'.
Proof.
  intros H. destruct (gens (store w) !! g) as [G|] eqn:HG.
  - destruct (is_live (store w) value) eqn:Hl.
    + rewrite (YIELD_VALUE_unfold caller g G) in H by done.
      destruct (caller _ _) as [s2|] eqn:Hc; [|done].
      apply after_switch_Thrown in H. eauto 6.
    + destruct (YIELD_VALUE_not_live caller g value w Hl). congruence.
  - destruct (YIELD_VALUE_undefined caller g value w HG). congruence.
Qed.

(** One yield makes one switch, at which the caller finds the value of this
    yield in the slot; or it aborts before it has touched anything. *)
Lemma YIELD_VALUE_switches g value w :
  (∃ why, YIELD_VALUE PyTraceBack_Type caller g value w = Aborted why w) ∨
  (∃ sw, switches (world_of (YIELD_VALUE PyTraceBack_Type caller g value w))
         = switches w ++ [sw] ∧
         seen g sw = Some value).
Proof.
  destruct (gens (store w) !! g) as [G|] eqn:HG;
    [|left; by apply YIELD_VALUE_undefined].
  destruct (is_live (store w) value) eqn:Hl;
    [|left; by apply YIELD_VALUE_not_live].
  right. rewrite (YIELD_VALUE_unfold caller g G) by done.
  exists (mkSwitch (mkFiberRef g at_m_yielder_context)
                   (mkFiberRef g at_m_caller_context)
                   (yielded_store g value G (store w))).
  split.
  - destruct (caller _ _) as [s2|]; [|reflexivity].
    by destruct (after_switch_silent g
                   (mkWorld s2 (yielded_switches g value G w))) as [-> _].
  - unfold seen. cbn [sw_store]. by rewrite yielded_store_lookup.
Qed.

End Hand_off_more.

(** ** Where an assertion can fail *)

Lemma bind_no_assertion_failure {A B} (m : M A) (f : A → M B) w :
  no_assertion_failure (m w) →
  (∀ a w', no_assertion_failure (f a w')) →
  no_assertion_failure ((m ≫= f) w).
Proof.
  intros Hm Hf. rewrite bind_unfold.
  destruct (m w) as [a w1|w1|why w1|w1] eqn:E.
  - apply Hf.
  - intros w'. discriminate.
  - intros w' [= -> ->]. by eapply Hm.
  - intros w'. discriminate.
Qed.

Lemma load_no_assertion_failure {A} g (field : Nuitka_GeneratorObject → A) w :
  no_assertion_failure (load g field w).
Proof. unfold load. by destruct (gens (store w) !! g). Qed.

Lemma Py_INCREF_no_assertion_failure o w : no_assertion_failure (Py_INCREF o w).
Proof. unfold Py_INCREF. by destruct (heap (store w) !! o). Qed.

Lemma Py_XINCREF_no_assertion_failure o w :
  no_assertion_failure (Py_XINCREF o w).
Proof.
  unfold Py_XINCREF. destruct (o =? NULL)%N; [done|].
  apply Py_INCREF_no_assertion_failure.
Qed.

Lemma Py_DECREF_no_assertion_failure o w :
  no_assertion_failure (Py_DECREF o w).
Proof.
  unfold Py_DECREF, _Py_Dealloc. destruct (heap (store w) !! o); [|done].
  cbv zeta. by case_match.
Qed.

Lemma Py_XDECREF_no_assertion_failure o w :
  no_assertion_failure (Py_XDECREF o w).
Proof.
  unfold Py_XDECREF. destruct (o =? NULL)%N; [done|].
  apply Py_DECREF_no_assertion_failure.
Qed.

Lemma Py_TYPE_no_assertion_failure o w : no_assertion_failure (Py_TYPE o w).
Proof. unfold Py_TYPE. by destruct (heap (store w) !! o). Qed.

Lemma PyErr_Restore_no_assertion_failure t v tb w :
  no_assertion_failure (PyErr_Restore PyTraceBack_Type t v tb w).
Proof.
  unfold PyErr_Restore. apply bind_no_assertion_failure.
  - case_match; [|done]. apply bind_no_assertion_failure;
      [apply Py_TYPE_no_assertion_failure|intros ty ?].
    case_match; [|done]. apply bind_no_assertion_failure;
      [apply Py_DECREF_no_assertion_failure|done].
  - intros tb' w'. cbv beta zeta.
    apply bind_no_assertion_failure;
      [apply Py_XDECREF_no_assertion_failure|intros _ ?].
    apply bind_no_assertion_failure;
      [apply Py_XDECREF_no_assertion_failure|intros _ ?].
    apply Py_XDECREF_no_assertion_failure.
Qed.

Lemma assign_no_assertion_failure g upd w :
  no_assertion_failure (assign g upd w).
Proof. unfold assign. by destruct (gens (store w) !! g). Qed.

Lemma assertObject_dead value w :
  value = NULL ∨ is_dead (store w) value →
  assertObject value w = Aborted AssertionFailure w.
Proof.
  unfold assertObject. destruct (N.eqb_spec value NULL) as [|Hne]; [done|].
  intros [?|(h & -> & Hrc)]; [done|].
  destruct (Z.ltb_spec 0 (ob_refcnt h)); [lia|done].
Qed.

(** The assertion of CHECK_EXCEPTION is the only one it can fail. *)
Lemma CHECK_EXCEPTION_no_assertion_failure g w :
  (∀ G, gens (store w) !! g = Some G →
        m_exception_type G = NULL ∨
        is_live (store w) (m_exception_type G) = true) →
  no_assertion_failure (CHECK_EXCEPTION PyTraceBack_Type g w).
Proof.
  intros Hlive. destruct (gens (store w) !! g) as [G|] eqn:HG;
    [|by rewrite CHECK_EXCEPTION_undefined].
  destruct (Hlive G eq_refl) as [Hn|Hl];
    [by rewrite (CHECK_EXCEPTION_null g G)|].
  pose proof Hl as [Hne _]%is_live_spec.
  unfold CHECK_EXCEPTION. rewrite (load_Some _ _ _ _ G) by done.
  destruct (N.eqb_spec (m_exception_type G) NULL) as [?|_]; [done|]. simpl.
  rewrite bind_unfold, (load_Some _ _ _ _ G), assertObject_live by done.
  repeat first
    [ apply load_no_assertion_failure
    | apply Py_INCREF_no_assertion_failure
    | apply Py_XINCREF_no_assertion_failure
    | apply PyErr_Restore_no_assertion_failure
    | apply assign_no_assertion_failure
    | apply bind_no_assertion_failure; [|intros ? ?] ].
  intros ?. discriminate.
Qed.


(** * The claims *)

(** ** The type check *)

(** C10. The public generator type check is exact: for every object it
    returns true if and only if the object's type is precisely the
    compiled-generator type itself, and it changes nothing; so an instance of
    a type derived from the generator type, which is another type, is not
    recognised as a generator. *)
Theorem Nuitka_Generator_Check_exact
    (Nuitka_Generator_Type object : addr) (h : PyObject_HEAD) (w : World) :
  heap (store w) !! object = Some h →
  (∃ b, Nuitka_Generator_Check Nuitka_Generator_Type object w = Returned b w ∧
        (b = true ↔ ob_type h = Nuitka_Generator_Type)) ∧
  (derives_from (store w) (ob_type h) Nuitka_Generator_Type →
   ob_type h ≠ Nuitka_Generator_Type →
   Nuitka_Generator_Check Nuitka_Generator_Type object w = Returned false w).
Proof.
  intros Hh. unfold Nuitka_Generator_Check.
  rewrite bind_unfold. unfold Py_TYPE. rewrite Hh.
  unfold mret, M_ret.
  destruct (N.eqb_spec (ob_type h) Nuitka_Generator_Type) as [He|Hne].
  - split; [|done]. by exists true.
  - split; [|done]. exists false. split; [done|]. split; [done|]. done.
Qed.

(** ** The name *)

(** C7. For every generator the name accessor returns exactly the label in
    the generator's name field, the pointer itself, and leaves the world as
    it is: no field of the generator, no slot, flag or context, and no other
    object changes, and no fiber is switched to.  The label is immutable: no
    operation of the header assigns to it, so over every run of operations
    the field still holds the same label, as long as the caller's turns leave
    it alone. *)
Theorem Nuitka_Generator_GetName_pure
    (Nuitka_Generator_Type Py_None : addr) (PYTHON_VERSION : Z)
    (caller : list Switch → Store → option Store)
    (object : addr) (G : Nuitka_GeneratorObject) (w : World) :
  gens (store w) !! object = Some G →
  Nuitka_Generator_GetName object w = Returned (m_name G) w ∧
  (caller_keeps caller m_name eq object →
   ∀ ops, ∃ G',
     gens (store (world_of
             (run_ops PyTraceBack_Type Nuitka_Generator_Type Py_None
                      PYTHON_VERSION caller ops w))) !! object
     = Some G' ∧
     m_name G' = m_name G).
Proof.
  intros HG. split.
  - unfold Nuitka_Generator_GetName, load. by rewrite HG.
  - intros Hc ops.
    destruct (evolves_run_ops Nuitka_Generator_Type Py_None PYTHON_VERSION
                caller m_name eq) with (g := object) (ops := ops) (w := w)
                (G := G) as (G' & HG' & Hn); try done; try congruence.
    eauto.
Qed.

(** ** Raising the pending error *)

(** C2, the claim as it stands fails: the traceback that is raised need not
    be the pointer of the traceback slot.  CHECK_EXCEPTION passes the slot
    to PyErr_Restore as it is, and PyErr_Restore drops a traceback that is
    not a traceback object.  With None (object 7) in the traceback slot the
    error is raised with a null traceback, by CHECK_EXCEPTION itself and at
    the suspension point of YIELD_VALUE: the third pointer of the error
    indicator is not the third pointer of the slots. *)
Lemma CHECK_EXCEPTION_raises_same_objects_counterexample :
  m_exception_tb <$> gens (store ex_untraced_world) !! 10%N = Some 7%N ∧
  (∃ w', CHECK_EXCEPTION 105 10 ex_untraced_world = Thrown w' ∧
         tstate (store w') = mkTState 30 31 NULL ∧
         m_exception_tb <$> gens (store w') !! 10%N = Some 7%N) ∧
  (∃ w', YIELD_VALUE 105 (ex_throw 30 31 7) 10 20 ex_world = Thrown w' ∧
         tstate (store w') = mkTState 30 31 NULL) ∧
  7%N ≠ NULL.
Proof.
  split; [vm_compute; reflexivity|].
  split; [eexists; repeat split; vm_compute; reflexivity|].
  split; [eexists; repeat split; vm_compute; reflexivity|done].
Qed.

(** C2, amended.  When the pending injected error is delivered into the
    producer, whether by CHECK_EXCEPTION itself or at the suspension point
    of YIELD_VALUE, the kind and the value in the thread's error indicator
    are the very pointers that were in the generator's kind and value slots:
    the same objects, not wrapped and not copied.  The traceback in the
    indicator is the pointer of the traceback slot when that is null or
    points to a traceback object; when the slot points to any other object,
    the traceback in the indicator is null.  And a pending error whose kind
    is a live object is delivered, when the value and traceback slots hold
    null or live objects, the references of the indicator are counted and
    the counts are in range. *)
Theorem CHECK_EXCEPTION_raises_checked_objects
    (caller : list Switch → Store → option Store) (g : addr) (w w' : World) :
  (∀ G, gens (store w) !! g = Some G →
        is_live (store w) (m_exception_type G) = true →
        raise_defined (store w) g G →
        ∃ w'', CHECK_EXCEPTION PyTraceBack_Type g w = Thrown w'') ∧
  (CHECK_EXCEPTION PyTraceBack_Type g w = Thrown w' →
   ∃ G, gens (store w) !! g = Some G ∧
        curexc_type (tstate (store w')) = m_exception_type G ∧
        curexc_value (tstate (store w')) = m_exception_value G ∧
        curexc_traceback (tstate (store w')) =
        checked_traceback PyTraceBack_Type (store w) (m_exception_tb G) ∧
        (m_exception_tb G = NULL ∨
         (∃ h, heap (store w) !! m_exception_tb G = Some h ∧
               ob_type h = PyTraceBack_Type) →
         curexc_traceback (tstate (store w')) = m_exception_tb G) ∧
        (m_exception_tb G ≠ NULL →
         (∀ h, heap (store w) !! m_exception_tb G = Some h →
               ob_type h ≠ PyTraceBack_Type) →
         curexc_traceback (tstate (store w')) = NULL)) ∧
  (∀ value,
     YIELD_VALUE PyTraceBack_Type caller g value w = Thrown w' →
     ∃ G sws s2 G2,
       gens (store w) !! g = Some G ∧
       caller sws (yielded_store g value G (store w)) = Some s2 ∧
       gens s2 !! g = Some G2 ∧
       tstate (store w') =
       mkTState (m_exception_type G2) (m_exception_value G2)
                (checked_traceback PyTraceBack_Type s2 (m_exception_tb G2))).
Proof.
  split; [|split].
  - intros G HG Hl Hd.
    destruct (CHECK_EXCEPTION_raises g G w HG Hl Hd) as (w'' & E & _). eauto.
  - intros (G & HG & _ & Hr)%CHECK_EXCEPTION_Thrown.
    exists G. split; [done|]. rewrite (rs_tstate _ _ _ _ _ Hr). simpl.
    split; [done|]. split; [done|]. split; [done|]. split.
    + apply checked_traceback_same.
    + apply checked_traceback_dropped.
  - intros value (G & s2 & HG & _ & Hc & Ht)%YIELD_VALUE_Thrown.
    apply CHECK_EXCEPTION_Thrown in Ht as (G2 & HG2 & _ & Hr).
    exists G, (yielded_switches g value G w), s2, G2.
    split; [done|]. split; [done|]. split; [done|].
    exact (rs_tstate _ _ _ _ _ Hr).
Qed.

(** C8. After the pending injected error is raised into the producer, only
    the kind field of the error payload is reset to null: the generator's
    fields are the old ones but for that field, so the value and traceback
    fields retain their pointers, and no other generator is touched.
    Whether the triple counts as populated is determined by the kind field
    alone: the check returns, and leaves everything as it is, exactly when
    the kind is null, whatever the value and traceback fields hold.  So the
    same error is not raised twice: the check right after the raise returns,
    and so does the resumption at the next yield by a caller that puts no
    new kind into the slot. *)
Theorem CHECK_EXCEPTION_resets_kind_only
    (g : addr) (G : Nuitka_GeneratorObject) (w : World) :
  gens (store w) !! g = Some G →
  (m_exception_type G = NULL ↔
   CHECK_EXCEPTION PyTraceBack_Type g w = Returned tt w) ∧
  (∀ w', CHECK_EXCEPTION PyTraceBack_Type g w = Thrown w' →
     gens (store w') = <[g := set_m_exception_type NULL G]> (gens (store w)) ∧
     (∃ G', gens (store w') !! g = Some G' ∧
            m_exception_type G' = NULL ∧
            m_exception_value G' = m_exception_value G ∧
            m_exception_tb G' = m_exception_tb G) ∧
     CHECK_EXCEPTION PyTraceBack_Type g w' = Returned tt w' ∧
     ∀ caller value w'',
       caller_keeps caller m_exception_type eq g →
       YIELD_VALUE PyTraceBack_Type caller g value w' ≠ Thrown w'').
Proof.
  intros HG. split.
  - split.
    + intros Hn. by apply (CHECK_EXCEPTION_null g G).
    + intros (_ & G' & HG' & Hn)%CHECK_EXCEPTION_Returned. congruence.
  - intros w' (G' & HG' & Hne & Hr)%CHECK_EXCEPTION_Thrown.
    assert (G' = G) as -> by congruence.
    assert (gens (store w') !! g = Some (set_m_exception_type NULL G)) as HG1
      by (rewrite (rs_gens _ _ _ _ _ Hr); apply lookup_insert_eq).
    split; [exact (rs_gens _ _ _ _ _ Hr)|]. split; [eauto|].
    split; [by apply (CHECK_EXCEPTION_null g (set_m_exception_type NULL G))|].
    intros caller value w'' Hc
      (G1 & s2 & HG1' & _ & Hs & Ht)%YIELD_VALUE_Thrown.
    apply CHECK_EXCEPTION_Thrown in Ht as (G2 & HG2 & Hne2 & _).
    simpl in HG2.
    destruct (Hc _ _ _ Hs (set_m_yielder_context
                             (N.succ (m_yielder_context G1))
                             (set_m_yielded value G1)))
      as (G3 & HG3 & He); [apply yielded_store_lookup|].
    assert (G1 = set_m_exception_type NULL G) as -> by congruence.
    assert (G3 = G2) as -> by congruence.
    simpl in He. congruence.
Qed.

(** A body that yields 20, catches the error injected at that yield, and
    yields 21: the error is raised at the first yield only. *)
Example error_raised_once :
  ∃ w1 w2,
    YIELD_VALUE 105 (ex_throw_once 30 31 32) 10 20 ex_world = Thrown w1 ∧
    YIELD_VALUE 105 (ex_throw_once 30 31 32) 10 21 w1 = Returned 7%N w2 ∧
    map (seen 10) (switches w2) = [Some 20; Some 21]%N.
Proof. eexists _, _. repeat split; vm_compute; reflexivity. Qed.


Lemma tstate_refs_raised g G w w' a :
  raised PyTraceBack_Type g G w w' →
  tstate_refs (store w') a =
  ref_to (m_exception_type G) a + ref_to (m_exception_value G) a
  + ref_to (checked_traceback PyTraceBack_Type (store w)
              (m_exception_tb G)) a.
Proof. intros Hr. unfold tstate_refs. by rewrite (rs_tstate _ _ _ _ _ Hr). Qed.



(** ** The yield hand-off *)

(** C1, the claim as it stands fails: a non-null value is not enough.  Object
    22 is there, its address is not null, and its reference count is zero;
    yielding it fails the assertion at the entry of YIELD_VALUE, with nothing
    written to the slot and no switch made.  Likewise a populated error kind
    that is a dead object is not raised on resumption: the assertion of
    CHECK_EXCEPTION fails. *)
Lemma YIELD_VALUE_hand_off_counterexample :
  (22%N ≠ NULL ∧
   gens (store ex_world) !! 10%N = Some ex_generator ∧
   YIELD_VALUE 105 (ex_send 7) 10 22 ex_world
   = Aborted AssertionFailure ex_world ∧
   m_yielded ex_generator ≠ 22%N ∧
   switches ex_world = []) ∧
  (∃ w', YIELD_VALUE 105 (ex_throw 22 31 32) 10 20 ex_world
         = Aborted AssertionFailure w' ∧
         m_exception_type <$> gens (store w') !! 10%N = Some 22%N ∧
         tstate (store w') = mkTState 0 0 0).
Proof.
  split.
  - split; [done|]. repeat split; vm_compute; (reflexivity || discriminate).
  - eexists. repeat split; vm_compute; reflexivity.
Qed.

(** C1, amended.  For every generator and every live value (non-null, of an
    object with a positive reference count: what the entry assertion checks),
    YIELD_VALUE first writes the value into the pending-value slot, then
    switches from the producer's fiber to the caller's, the switch carrying
    no value; if the caller never switches back, the producer stays
    suspended there.  Upon being resumed: if the kind field of the pending
    error is null it returns the contents of the pending-value slot as the
    caller left it; if the kind field is populated with a live object (the
    value and traceback slots holding null or live objects, the references
    of the error indicator counted and the counts in range), it raises that
    error at that point: YIELD_VALUE does not return, the exception thrown
    is the one CHECK_EXCEPTION throws there, and the error indicator holds
    the kind and the value of the slots, with the traceback of the slot if
    that is null or a traceback object, and a null traceback otherwise. *)
Theorem YIELD_VALUE_hand_off
    (caller : list Switch → Store → option Store)
    (g : addr) (G : Nuitka_GeneratorObject) (value : addr) (w : World) :
  gens (store w) !! g = Some G →
  is_live (store w) value = true →
  let s1 := yielded_store g value G (store w) in
  let sws := yielded_switches g value G w in
  (m_yielded <$> gens s1 !! g = Some value ∧
   heap s1 = heap (store w) ∧ tstate s1 = tstate (store w)) ∧
  (caller sws s1 = None →
   YIELD_VALUE PyTraceBack_Type caller g value w
   = Suspended (mkWorld s1 sws)) ∧
  (∀ s2 G2,
     caller sws s1 = Some s2 →
     gens s2 !! g = Some G2 →
     (m_exception_type G2 = NULL →
      YIELD_VALUE PyTraceBack_Type caller g value w
      = Returned (m_yielded G2) (mkWorld s2 sws)) ∧
     (m_exception_type G2 ≠ NULL →
      is_live s2 (m_exception_type G2) = true →
      raise_defined s2 g G2 →
      ∃ w', YIELD_VALUE PyTraceBack_Type caller g value w = Thrown w' ∧
            CHECK_EXCEPTION PyTraceBack_Type g (mkWorld s2 sws) = Thrown w' ∧
            tstate (store w') =
            mkTState (m_exception_type G2) (m_exception_value G2)
                     (checked_traceback PyTraceBack_Type s2
                        (m_exception_tb G2)) ∧
            (m_exception_tb G2 = NULL ∨
             (∃ h, heap s2 !! m_exception_tb G2 = Some h ∧
                   ob_type h = PyTraceBack_Type) →
             curexc_traceback (tstate (store w')) = m_exception_tb G2) ∧
            (m_exception_tb G2 ≠ NULL →
             (∀ h, heap s2 !! m_exception_tb G2 = Some h →
                   ob_type h ≠ PyTraceBack_Type) →
             curexc_traceback (tstate (store w')) = NULL) ∧
            switches w' = sws)).
Proof.
  intros HG Hlive s1 sws.
  pose proof (YIELD_VALUE_unfold caller g G value w HG Hlive) as Hy.
  fold s1 sws in Hy. split; [|split].
  - subst s1. by rewrite yielded_store_lookup.
  - intros Hc. by rewrite Hy, Hc.
  - intros s2 G2 Hc HG2. rewrite Hy, Hc. split.
    + intros Hn. by apply after_switch_Returned.
    + intros _ Hl Hd.
      destruct (CHECK_EXCEPTION_raises g G2 (mkWorld s2 sws))
        as (w' & E & Hr & _); try done.
      exists w'. split; [by apply after_switch_Thrown|].
      split; [done|]. rewrite (rs_tstate _ _ _ _ _ Hr). simpl.
      split; [done|]. split; [apply checked_traceback_same|].
      split; [apply checked_traceback_dropped|].
      exact (rs_switches _ _ _ _ _ Hr).
Qed.

(** C3, the claim as it stands fails: on the way back in the pending value
    is not asserted.  A caller that resumes with a null pending value and no
    error, or with the dead object 22, gets no assertion failure: YIELD_VALUE
    returns that pointer. *)
Lemma YIELD_VALUE_live_payload_counterexample :
  (∃ w', YIELD_VALUE 105 (ex_send NULL) 10 20 ex_world = Returned NULL w') ∧
  (∃ w', YIELD_VALUE 105 (ex_send 22) 10 20 ex_world = Returned 22%N w' ∧
         is_live (store w') 22 = false ∧
         rc (store w') 22 = 0).
Proof.
  split; eexists; repeat split; vm_compute; reflexivity.
Qed.

(** C3, amended.  At every fiber switch made by the yield hand-off the
    payload that the header asserts must reference a live object: the yielded
    value on the way out, and the kind of a populated pending error on the
    way back in.  A null or dead yielded value is a fatal assertion failure
    at the entry, before anything is written or switched to, so the value in
    the slot at every switch is live; a dead error kind is a fatal assertion
    failure at the resumption.  The pending value on the way back in is not
    asserted: with no error pending it is returned as it is.  Under the
    precondition that the yielded value and the kind of a populated pending
    error are live, the assertion-failure branch is unreachable. *)
Theorem YIELD_VALUE_live_payload
    (caller : list Switch → Store → option Store)
    (g : addr) (G : Nuitka_GeneratorObject) (value : addr) (w : World) :
  gens (store w) !! g = Some G →
  let s1 := yielded_store g value G (store w) in
  let sws := yielded_switches g value G w in
  (value = NULL ∨ is_dead (store w) value →
   YIELD_VALUE PyTraceBack_Type caller g value w
   = Aborted AssertionFailure w) ∧
  (∀ sw, sw ∈ drop (length (switches w))
                   (switches (world_of
                      (YIELD_VALUE PyTraceBack_Type caller g value w))) →
         seen g sw = Some value ∧ is_live (sw_store sw) value = true) ∧
  (is_live (store w) value = true →
   ∀ s2 G2,
     caller sws s1 = Some s2 →
     gens s2 !! g = Some G2 →
     (m_exception_type G2 ≠ NULL → is_dead s2 (m_exception_type G2) →
      YIELD_VALUE PyTraceBack_Type caller g value w
      = Aborted AssertionFailure (mkWorld s2 sws)) ∧
     (m_exception_type G2 = NULL →
      YIELD_VALUE PyTraceBack_Type caller g value w
      = Returned (m_yielded G2) (mkWorld s2 sws))) ∧
  (is_live (store w) value = true →
   (∀ s2 G2,
      caller sws s1 = Some s2 →
      gens s2 !! g = Some G2 →
      m_exception_type G2 = NULL ∨
      is_live s2 (m_exception_type G2) = true) →
   no_assertion_failure (YIELD_VALUE PyTraceBack_Type caller g value w)).
Proof.
  intros HG s1 sws. split; [|split; [|split]].
  - intros Hd. unfold YIELD_VALUE.
    by rewrite bind_unfold, assertObject_dead.
  - intros sw Hin. destruct (is_live (store w) value) eqn:Hl.
    + rewrite (YIELD_VALUE_unfold caller g G) in Hin by done.
      fold s1 sws in Hin.
      assert (switches (world_of
                match caller sws s1 with
                | Some s' =>
                    (CHECK_EXCEPTION PyTraceBack_Type g ;; load g m_yielded)
                      (mkWorld s' sws)
                | None => Suspended (mkWorld s1 sws)
                end) = sws) as Hsw.
      { destruct (caller sws s1) as [s2|]; [|done].
        by destruct (after_switch_silent g (mkWorld s2 sws)) as [-> _]. }
      rewrite Hsw in Hin. unfold sws, yielded_switches in Hin.
      rewrite drop_app_length in Hin. apply list_elem_of_singleton in Hin as ->.
      unfold seen. cbn [sw_store]. rewrite yielded_store_lookup. done.
    + destruct (YIELD_VALUE_not_live caller g value w Hl) as [why E].
      rewrite E in Hin. simpl in Hin. rewrite drop_all in Hin.
      by apply elem_of_nil in Hin.
  - intros Hl s2 G2 Hc HG2.
    rewrite (YIELD_VALUE_unfold caller g G) by done.
    fold s1 sws. rewrite Hc. split.
    + intros Hne (h & Hh & Hrc).
      by rewrite bind_unfold, (CHECK_EXCEPTION_dead g G2 _ h).
    + intros Hn. by apply after_switch_Returned.
  - intros Hl Hkind.
    rewrite (YIELD_VALUE_unfold caller g G) by done.
    fold s1 sws. destruct (caller sws s1) as [s2|] eqn:Hc; [|done].
    apply bind_no_assertion_failure.
    + apply CHECK_EXCEPTION_no_assertion_failure. intros G2 HG2.
      by apply (Hkind s2).
    + intros _ w'. apply load_no_assertion_failure.
Qed.

(** ** YIELD_RETURN *)

(** C4, the claim as it stands fails: the version gate and the test for None
    both matter.  Compiled for version 2.6 with a value that is not None,
    YIELD_RETURN writes the value to the slot and switches to the caller;
    compiled for version 2.7 it does nothing with the same generator and
    value, and for version 2.6 it does nothing when the value is None. *)
Lemma YIELD_RETURN_gate_counterexample :
  YIELD_RETURN 105 7 270 (ex_send 7) 10 20 ex_world = Returned tt ex_world ∧
  YIELD_RETURN 105 7 260 (ex_send 7) 10 7 ex_world = Returned tt ex_world ∧
  (∃ w', YIELD_RETURN 105 7 260 (ex_send 7) 10 20 ex_world = Returned tt w' ∧
         map (seen 10) (switches w') = [Some 20%N] ∧
         switches ex_world = []) ∧
  YIELD_RETURN 105 7 260 (ex_send 7) 10 20 ex_world
  ≠ YIELD_RETURN 105 7 270 (ex_send 7) 10 20 ex_world.
Proof.
  split; [vm_compute; reflexivity|].
  split; [vm_compute; reflexivity|].
  split; [eexists; repeat split; vm_compute; reflexivity|].
  intros E.
  assert (length (switches (world_of
            (YIELD_RETURN 105 7 260 (ex_send 7) 10 20 ex_world))) = 0%nat) as H
    by by rewrite E.
  vm_compute in H. discriminate.
Qed.

(** C4, amended.  YIELD_RETURN is gated: compiled for a version from 2.7
    on, or with None as the returned value, it returns at once and changes
    nothing, whatever the generator; compiled for a version before 2.7 with
    a value that is not None, it is YIELD_VALUE of that generator and value
    with the result dropped. *)
Theorem YIELD_RETURN_gate
    (Py_None : addr) (PYTHON_VERSION : Z)
    (caller : list Switch → Store → option Store)
    (generator value : addr) (w : World) :
  (270 ≤ PYTHON_VERSION ∨ value = Py_None →
   YIELD_RETURN PyTraceBack_Type Py_None PYTHON_VERSION caller generator value w
   = Returned tt w) ∧
  (PYTHON_VERSION < 270 ∧ value ≠ Py_None →
   YIELD_RETURN PyTraceBack_Type Py_None PYTHON_VERSION caller generator value w
   = (YIELD_VALUE PyTraceBack_Type caller generator value ;; mret tt) w).
Proof.
  unfold YIELD_RETURN.
  destruct (Z.ltb_spec PYTHON_VERSION 270), (N.eqb_spec value Py_None);
    simpl; split; try done.
  - intros [_ ?]. done.
  - intros [?|?]; [lia|done].
  - intros [? _]. lia.
  - intros [? _]. lia.
Qed.

(** ** The single slot *)

(** C6. Values are handed off through the one pending-value slot, with no
    buffering: each yield overwrites the slot before it switches.  So for
    every sequence of yields, the values the caller finds in the slot at the
    successive switches are the values passed to the yields, in program
    order, one switch per yield: after any run they are the values of the
    yields made so far, and when the run has gone through the whole sequence
    they are all of its values.  (A yield that aborts ends the run; one that
    raises the injected error does not.) *)
Theorem yields_seen_in_order
    (Nuitka_Generator_Type Py_None : addr) (PYTHON_VERSION : Z)
    (caller : list Switch → Store → option Store)
    (g : addr) (values : list addr) (w : World) :
  ∃ new : list Switch,
    switches (world_of (run_ops PyTraceBack_Type Nuitka_Generator_Type Py_None
                                PYTHON_VERSION caller
                                (map (op_YIELD_VALUE g) values) w))
    = switches w ++ new ∧
    map (seen g) new = map Some (take (length new) values) ∧
    (∀ w', run_ops PyTraceBack_Type Nuitka_Generator_Type Py_None
                   PYTHON_VERSION caller
                   (map (op_YIELD_VALUE g) values) w = Returned tt w' →
           length new = length values).
Proof.
  revert w. induction values as [|v values IH]; intros w.
  { exists []. simpl. by rewrite app_nil_r. }
  cbn [map run_ops run_op]. rewrite bind_unfold.
  destruct (YIELD_VALUE_switches caller g v w) as [[why E]|(sw & Hsw & Hseen)].
  { rewrite E. exists []. simpl. by rewrite app_nil_r. }
  destruct (YIELD_VALUE PyTraceBack_Type caller g v w)
    as [a w1|w1|why w1|w1] eqn:E; simpl in Hsw.
  - unfold mret, M_ret.
    destruct (IH w1) as (new & Hnew & Hmap & Hlen).
    exists (sw :: new). rewrite Hnew, Hsw, <- app_assoc. simpl.
    split; [done|]. split; [by rewrite Hseen, Hmap|].
    intros w' Hr. f_equal. by eapply Hlen.
  - destruct (IH w1) as (new & Hnew & Hmap & Hlen).
    exists (sw :: new). rewrite Hnew, Hsw, <- app_assoc. simpl.
    split; [done|]. split; [by rewrite Hseen, Hmap|].
    intros w' Hr. f_equal. by eapply Hlen.
  - exists [sw]. simpl. by rewrite Hseen.
  - exists [sw]. simpl. by rewrite Hseen.
Qed.

(** ** The status *)

Lemma transition_le s t : status_le s (transition s t).
Proof. destruct s, t; unfold status_le; simpl; lia. Qed.

Lemma status_le_trans a b c : status_le a b → status_le b c → status_le a c.
Proof. unfold status_le. lia. Qed.

Lemma table_reachable_le a b : table_reachable a b → status_le a b.
Proof.
  intros [ts <-]. revert a. induction ts as [|t ts IH]; intros a; simpl.
  - unfold status_le. lia.
  - eapply status_le_trans; [apply transition_le|apply IH].
Qed.

Lemma status_le_table_reachable a b : status_le a b → table_reachable a b.
Proof.
  unfold status_le. destruct a, b; simpl; intros H; try lia.
  - by exists [].
  - by exists [trigger_resume].
  - by exists [trigger_close].
  - by exists [].
  - by exists [trigger_finish].
  - by exists [].
Qed.

Lemma silent_status w w' g :
  silent w w' →
  m_status <$> gens (store w') !! g = m_status <$> gens (store w) !! g.
Proof.
  intros (_ & _ & Hg). specialize (Hg g).
  destruct (gens (store w) !! g) as [G|], (gens (store w') !! g) as [G'|];
    try done.
  simpl. f_equal. by apply (slots_apart_field m_status G G').
Qed.

(** The status after YIELD_VALUE is the status before, or the one in the
    store that the caller handed back at the switch, having found the status
    as it was before. *)
Lemma YIELD_VALUE_status caller generator value g w :
  let w' := world_of (YIELD_VALUE PyTraceBack_Type caller generator value w) in
  m_status <$> gens (store w') !! g = m_status <$> gens (store w) !! g ∨
  ∃ sws s s2,
    caller sws s = Some s2 ∧
    m_status <$> gens s !! g = m_status <$> gens (store w) !! g ∧
    m_status <$> gens (store w') !! g = m_status <$> gens s2 !! g.
Proof.
  cbv zeta.
  destruct (gens (store w) !! generator) as [G|] eqn:HG;
    [|destruct (YIELD_VALUE_undefined caller generator value w HG) as [? ->];
      by left].
  destruct (is_live (store w) value) eqn:Hl;
    [|destruct (YIELD_VALUE_not_live caller generator value w Hl) as [? ->];
      by left].
  rewrite (YIELD_VALUE_unfold caller generator G) by done.
  assert (m_status <$> gens (yielded_store generator value G (store w)) !! g
          = m_status <$> gens (store w) !! g) as Hs1.
  { apply (silent_status w (with_store (yielded_store generator value G
                                          (store w)) w)).
    by apply silent_yielded_store. }
  destruct (caller _ _) as [s2|] eqn:Hc; [|by left].
  right. eexists _, _, s2. split; [exact Hc|]. split; [exact Hs1|].
  apply (silent_status (mkWorld s2 (yielded_switches generator value G w))),
    after_switch_silent.
Qed.

(** C5. The status field ranges over exactly the three states Unused,
    Running and Finished.  Over all sequences of operations it only advances
    Unused, Running, Finished and never regresses: the transitions of the
    state machine reach exactly the states that are not earlier in that
    order, and a run of the header's operations of any length, with a
    caller whose turns move the status by those transitions, leaves the
    status where it was or further on.  In particular every operation of the
    header leaves the status field unchanged: the exception check, the name
    access and the type check end with the status as it was, and so do yield
    and yield-return, but for what the caller did to it before switching
    back: the status is then the one the caller handed back. *)
Theorem status_only_advances
    (Nuitka_Generator_Type Py_None : addr) (PYTHON_VERSION : Z)
    (caller : list Switch → Store → option Store) (g : addr) :
  (∀ s : Generator_Status,
     s = status_Unused ∨ s = status_Running ∨ s = status_Finished) ∧
  (∀ (ts : list Trigger) (s : Generator_Status),
     status_le s (fold_left transition ts s)) ∧
  (∀ a b : Generator_Status, table_reachable a b ↔ status_le a b) ∧
  (caller_keeps caller m_status table_reachable g →
   ∀ ops w G,
     gens (store w) !! g = Some G →
     ∃ G', gens (store (world_of
                  (run_ops PyTraceBack_Type Nuitka_Generator_Type Py_None
                           PYTHON_VERSION caller ops w))) !! g = Some G' ∧
           status_le (m_status G) (m_status G')) ∧
  (∀ object w,
     m_status <$> gens (store (world_of
                         (CHECK_EXCEPTION PyTraceBack_Type object w))) !! g
     = m_status <$> gens (store w) !! g ∧
     m_status <$> gens (store (world_of
                         (Nuitka_Generator_GetName object w))) !! g
     = m_status <$> gens (store w) !! g ∧
     m_status <$> gens (store (world_of
                         (Nuitka_Generator_Check Nuitka_Generator_Type
                            object w))) !! g
     = m_status <$> gens (store w) !! g) ∧
  (∀ o w,
     let w' := world_of (run_op PyTraceBack_Type Nuitka_Generator_Type Py_None
                                PYTHON_VERSION caller o w) in
     m_status <$> gens (store w') !! g = m_status <$> gens (store w) !! g ∨
     ∃ sws s s2,
       caller sws s = Some s2 ∧
       m_status <$> gens s !! g = m_status <$> gens (store w) !! g ∧
       m_status <$> gens (store w') !! g = m_status <$> gens s2 !! g).
Proof.
  split; [|split; [|split; [|split; [|split]]]].
  - intros []; auto.
  - intros ts s. apply table_reachable_le. by exists ts.
  - intros a b.
    split; [apply table_reachable_le|apply status_le_table_reachable].
  - intros Hc ops w G HG.
    apply (evolves_run_ops Nuitka_Generator_Type Py_None PYTHON_VERSION
             caller m_status status_le); try done.
    + intros a. unfold status_le. lia.
    + apply status_le_trans.
    + intros sws s s' E G0 HG0.
      destruct (Hc sws s s' E G0 HG0) as (G' & HG' & Hr).
      exists G'. split; [done|]. by apply table_reachable_le.
  - intros object w. repeat split; apply silent_status.
    + apply preserves_CHECK_EXCEPTION.
    + apply preserves_GetName.
    + apply preserves_Check.
  - intros o w. cbv zeta.
    assert (∀ (m : M addr),
              world_of ((m ;; mret tt) w) = world_of (m w)) as Hdrop.
    { intros m. rewrite bind_unfold. by destruct (m w). }
    assert (∀ (m : M bool),
              world_of ((m ;; mret tt) w) = world_of (m w)) as Hdropb.
    { intros m. rewrite bind_unfold. by destruct (m w). }
    destruct o as [generator value|generator value|generator|object|object];
      cbn [run_op].
    + rewrite Hdrop. apply YIELD_VALUE_status.
    + unfold YIELD_RETURN. repeat case_match; try by left.
      rewrite Hdrop. apply YIELD_VALUE_status.
    + left. apply silent_status, preserves_CHECK_EXCEPTION.
    + left. rewrite Hdrop. apply silent_status, preserves_GetName.
    + left. rewrite Hdropb. apply silent_status, preserves_Check.
Qed.

(** * Further properties of the header *)

(** ** What CHECK_EXCEPTION can touch *)

Lemma no_new_objects_refl w : no_new_objects w w.
Proof. intros a h Hh. eauto. Qed.

Lemma no_new_objects_trans w1 w2 w3 :
  no_new_objects w1 w2 → no_new_objects w2 w3 → no_new_objects w1 w3.
Proof.
  intros H12 H23 a h3 Hh3. destruct (H23 a h3 Hh3) as (h2 & Hh2 & E2).
  destruct (H12 a h2 Hh2) as (h1 & Hh1 & E1). exists h1.
  split; [done|congruence].
Qed.

Lemma resets_kind_at_most_refl g w : resets_kind_at_most g w w.
Proof.
  split; [done|]. split; [done|]. split; [apply no_new_objects_refl|by left].
Qed.

Lemma set_m_exception_type_twice v G :
  set_m_exception_type v (set_m_exception_type v G) = set_m_exception_type v G.
Proof. by destruct G. Qed.

Lemma resets_kind_at_most_trans g w1 w2 w3 :
  resets_kind_at_most g w1 w2 → resets_kind_at_most g w2 w3 →
  resets_kind_at_most g w1 w3.
Proof.
  intros (Hs1 & Hb1 & Ho1 & Hg1) (Hs2 & Hb2 & Ho2 & Hg2).
  split; [congruence|]. split; [congruence|].
  split; [by eapply no_new_objects_trans|].
  destruct Hg1 as [E1|(G1 & HG1 & E1)], Hg2 as [E2|(G2 & HG2 & E2)].
  - left. congruence.
  - right. exists G2. rewrite <- E1. by split.
  - right. exists G1. split; [done|]. congruence.
  - right. exists G1. split; [done|].
    rewrite E1, lookup_insert_eq in HG2. injection HG2 as <-.
    by rewrite E2, E1, insert_insert_eq, set_m_exception_type_twice.
Qed.

Lemma frame_resets g w w' : frame w w' → resets_kind_at_most g w w'.
Proof.
  intros F. split; [apply F|]. split; [apply F|].
  split; [exact (fr_survivor _ _ F)|left; apply F].
Qed.

Lemma framed_assertObject value : preserves frame (assertObject value).
Proof.
  intros w. unfold assertObject. repeat case_match; apply frame_refl.
Qed.

Lemma framed_Py_INCREF o : preserves frame (Py_INCREF o).
Proof.
  intros w. unfold Py_INCREF.
  destruct (heap (store w) !! o) as [h|] eqn:Hh; [|apply frame_refl].
  by apply frame_update.
Qed.

Lemma framed_Py_XINCREF o : preserves frame (Py_XINCREF o).
Proof.
  unfold Py_XINCREF. case_match; [|apply framed_Py_INCREF].
  intros w. apply frame_refl.
Qed.

Lemma framed_Py_DECREF o : preserves frame (Py_DECREF o).
Proof.
  intros w. unfold Py_DECREF, _Py_Dealloc.
  destruct (heap (store w) !! o) as [h|] eqn:Hh; [|apply frame_refl].
  cbv zeta. case_match.
  - exact (frame_update_delete w o h (Py_ssize_t_wrap (ob_refcnt h - 1)) Hh).
  - by apply frame_update.
Qed.

Lemma framed_Py_XDECREF o : preserves frame (Py_XDECREF o).
Proof.
  unfold Py_XDECREF. case_match; [|apply framed_Py_DECREF].
  intros w. apply frame_refl.
Qed.

Lemma framed_Py_TYPE object : preserves frame (Py_TYPE object).
Proof. intros w. unfold Py_TYPE. case_match; apply frame_refl. Qed.

Lemma framed_PyErr_Restore t v tb :
  preserves frame (PyErr_Restore PyTraceBack_Type t v tb).
Proof.
  unfold PyErr_Restore. apply (preserves_bind frame_trans).
  - case_match; [|apply preserves_ret, frame_refl].
    apply (preserves_bind frame_trans); [apply framed_Py_TYPE|intros ty].
    case_match; [|apply preserves_ret, frame_refl].
    apply (preserves_bind frame_trans); [apply framed_Py_DECREF|intros _].
    apply preserves_ret, frame_refl.
  - intros tb' w. cbv beta zeta.
    set (w0 := with_store _ w).
    apply (frame_trans w w0); [apply frame_tstate|].
    revert w0. apply (preserves_bind frame_trans);
      [apply framed_Py_XDECREF|intros _].
    apply (preserves_bind frame_trans);
      [apply framed_Py_XDECREF|intros _].
    apply framed_Py_XDECREF.
Qed.

Lemma touches_framed {A} g (m : M A) :
  preserves frame m → preserves (resets_kind_at_most g) m.
Proof. intros Hm w. apply frame_resets, Hm. Qed.

Lemma touches_assign_kind g :
  preserves (resets_kind_at_most g) (assign g (set_m_exception_type NULL)).
Proof.
  intros w. unfold assign.
  destruct (gens (store w) !! g) as [G|] eqn:HG;
    [|apply resets_kind_at_most_refl].
  split; [done|]. split; [done|].
  split; [intros a h Hh; simpl in Hh; eauto|].
  right. by exists G.
Qed.

Lemma touches_CHECK_EXCEPTION g :
  preserves (resets_kind_at_most g) (CHECK_EXCEPTION PyTraceBack_Type g).
Proof.
  unfold CHECK_EXCEPTION.
  pose proof (@preserves_bind (resets_kind_at_most g)
                (resets_kind_at_most_trans g)) as Hb.
  pose proof (@preserves_load (resets_kind_at_most g)
                (resets_kind_at_most_refl g)) as Hl.
  apply Hb; [apply Hl|intros t].
  case_match; [|apply preserves_ret, resets_kind_at_most_refl].
  repeat first
    [ apply Hl
    | apply touches_framed, framed_assertObject
    | apply touches_framed, framed_Py_INCREF
    | apply touches_framed, framed_Py_XINCREF
    | apply touches_framed, framed_PyErr_Restore
    | apply touches_assign_kind
    | apply preserves_throw, resets_kind_at_most_refl
    | apply Hb; [|intros ?] ].
Qed.

Lemma resets_kind_lookup g w w' g' :
  resets_kind_at_most g w w' →
  match gens (store w) !! g' with
  | Some G =>
      gens (store w') !! g' = Some G ∨
      (g' = g ∧ gens (store w') !! g' = Some (set_m_exception_type NULL G))
  | None => gens (store w') !! g' = None
  end.
Proof.
  intros (_ & _ & _ & [E|(G & HG & E)]); rewrite E.
  - destruct (gens (store w) !! g'); auto.
  - destruct (decide (g = g')) as [<-|Hne].
    + rewrite HG, lookup_insert_eq. auto.
    + rewrite lookup_insert_ne by done. destruct (gens (store w) !! g'); auto.
Qed.


(** The raise frees an object to which the error indicator held the last
    reference: object 20 is gone afterwards. *)
Example CHECK_EXCEPTION_frees_released_object :
  rc (store ex_release_world) 20 = 1 ∧
  curexc_value (tstate (store ex_release_world)) = 20%N ∧
  ∃ w', CHECK_EXCEPTION 105 10 ex_release_world = Thrown w' ∧
        heap (store w') !! 20%N = None ∧
        tstate (store w') = mkTState 30 31 32.
Proof.
  split; [vm_compute; reflexivity|]. split; [reflexivity|].
  eexists. repeat split; vm_compute; reflexivity.
Qed.

(** ** The type check and the name across an exception check *)

Lemma returned_Check T object w :
  returned (Nuitka_Generator_Check T object w)
  = (λ t, (t =? T)%N) <$> (ob_type <$> heap (store w) !! object).
Proof.
  unfold Nuitka_Generator_Check. rewrite bind_unfold. unfold Py_TYPE.
  by destruct (heap (store w) !! object).
Qed.

Lemma returned_GetName object w :
  returned (Nuitka_Generator_GetName object w)
  = m_name <$> gens (store w) !! object.
Proof.
  unfold Nuitka_Generator_GetName, load.
  by destruct (gens (store w) !! object).
Qed.

(** X2. For an object that is still allocated after an exception check,
    the type check and the name access answer after the check what they
    answered before it, whether the check returned, raised or aborted, and
    for whatever generator it was made: the same boolean, the same name, or
    undefined as before.  For an object that is not allocated after the
    check, one the raise has freed among them, the type check is undefined
    behaviour. *)
Theorem Check_and_GetName_across_CHECK_EXCEPTION
    (Nuitka_Generator_Type g object : addr) (w : World) :
  let w' := world_of (CHECK_EXCEPTION PyTraceBack_Type g w) in
  (is_Some (heap (store w') !! object) →
   returned (Nuitka_Generator_Check Nuitka_Generator_Type object w')
   = returned (Nuitka_Generator_Check Nuitka_Generator_Type object w) ∧
   returned (Nuitka_Generator_GetName object w')
   = returned (Nuitka_Generator_GetName object w)) ∧
  (heap (store w') !! object = None →
   Nuitka_Generator_Check Nuitka_Generator_Type object w'
   = Aborted UndefinedBehaviour w').
Proof.
  cbv zeta. pose proof (touches_CHECK_EXCEPTION g w) as Ht. split.
  - intros [h' Hh']. split.
    + rewrite !returned_Check.
      destruct Ht as (_ & _ & Ho & _).
      destruct (Ho object h' Hh') as (h & Hh & E).
      rewrite Hh, Hh'. simpl. by rewrite E.
    + rewrite !returned_GetName.
      pose proof (resets_kind_lookup g _ _ object Ht) as Hl.
      destruct (gens (store w) !! object) as [G|]; [|by rewrite Hl].
      by destruct Hl as [->|[_ ->]].
  - intros Hn. unfold Nuitka_Generator_Check.
    rewrite bind_unfold. unfold Py_TYPE. by rewrite Hn.
Qed.

(** X3. Checking before casting is safe: in a store where the objects of the
    generator type are generator objects, an object that passes
    Nuitka_Generator_Check has a name to read, Nuitka_Generator_GetName
    returns it without undefined behaviour; and CHECK_EXCEPTION, whatever
    its outcome, and the assignment of the yielded value keep the store that
    way. *)
Theorem Check_guards_GetName
    (Nuitka_Generator_Type object : addr) (w : World) :
  generators_typed Nuitka_Generator_Type (store w) →
  (Nuitka_Generator_Check Nuitka_Generator_Type object w = Returned true w →
   ∃ G, gens (store w) !! object = Some G ∧
        Nuitka_Generator_GetName object w = Returned (m_name G) w) ∧
  (∀ g, generators_typed Nuitka_Generator_Type
          (store (world_of (CHECK_EXCEPTION PyTraceBack_Type g w)))) ∧
  (∀ g G value, gens (store w) !! g = Some G →
                generators_typed Nuitka_Generator_Type
                  (yielded_store g value G (store w))).
Proof.
  intros Hty. split; [|split].
  - intros Hc. unfold Nuitka_Generator_Check in Hc.
    rewrite bind_unfold in Hc. unfold Py_TYPE in Hc.
    destruct (heap (store w) !! object) as [h|] eqn:Hh; [|done].
    injection Hc as Hc. apply N.eqb_eq in Hc.
    destruct (Hty object h Hh Hc) as [G HG]. exists G. split; [done|].
    unfold Nuitka_Generator_GetName, load. by rewrite HG.
  - intros g o h' Hh' Ht'.
    pose proof (touches_CHECK_EXCEPTION g w) as Hk.
    destruct Hk as (_ & _ & Ho & Hg).
    destruct (Ho o h' Hh') as (h & Hh & E).
    destruct (Hty o h Hh) as [G HG]; [congruence|].
    destruct Hg as [->|(G0 & HG0 & ->)]; [eauto|].
    destruct (decide (g = o)) as [<-|Hne].
    + rewrite lookup_insert_eq. eauto.
    + rewrite lookup_insert_ne by done. eauto.
  - intros g G value HG o h Hh Ht. simpl in *.
    destruct (Hty o h Hh Ht) as [G0 HG0].
    destruct (decide (g = o)) as [<-|Hne].
    + rewrite lookup_insert_eq. eauto.
    + rewrite lookup_insert_ne by done. eauto.
Qed.

(** ** What YIELD_VALUE leaves to the caller *)

Lemma silent_field {A} (field : Nuitka_GeneratorObject → A) w w' g :
  (∀ v G, field (set_m_yielded v G) = field G) →
  (∀ v G, field (set_m_exception_type v G) = field G) →
  (∀ c G, field (set_m_yielder_context c G) = field G) →
  silent w w' →
  field <$> gens (store w') !! g = field <$> gens (store w) !! g.
Proof.
  intros Hy He Hc (_ & _ & Hg). specialize (Hg g).
  destruct (gens (store w) !! g) as [G|], (gens (store w') !! g) as [G'|];
    try done.
  simpl. f_equal. by apply (slots_apart_field field G G').
Qed.

(** X4. YIELD_VALUE writes to its own generator only, and there to three
    fields only: the two hand-off slots m_yielded and m_exception_type, and
    m_yielder_context, the fiber in which the switch saves the context of
    the producer.  For a generator that is still allocated afterwards, the
    fields of every other generator, and every field of its own generator
    that is none of these three (the running flag, the caller's context, the
    frame, the code, the name, the status), are after YIELD_VALUE what they
    were before, or what the caller, having found them as they were, handed
    back at the switch.  At the switch of a
    yield that passes its assertion the caller finds the generator with the
    value in the slot and the producer's context saved, all other fields as
    they were; the switch is from the fiber at m_yielder_context to the one
    at m_caller_context. *)
Theorem YIELD_VALUE_leaves_the_rest
    (caller : list Switch → Store → option Store)
    (g value : addr) (w : World) :
  let w' := world_of (YIELD_VALUE PyTraceBack_Type caller g value w) in
  (∀ g', is_Some (heap (store w') !! g') → g' ≠ g →
     gens (store w') !! g' = gens (store w) !! g' ∨
     ∃ sws s s2,
       caller sws s = Some s2 ∧
       gens s !! g' = gens (store w) !! g' ∧
       gens (store w') !! g' = gens s2 !! g') ∧
  (∀ (A : Type) (field : Nuitka_GeneratorObject → A) g',
     is_Some (heap (store w') !! g') →
     (∀ v G, field (set_m_yielded v G) = field G) →
     (∀ v G, field (set_m_exception_type v G) = field G) →
     (∀ c G, field (set_m_yielder_context c G) = field G) →
     field <$> gens (store w') !! g' = field <$> gens (store w) !! g' ∨
     ∃ sws s s2,
       caller sws s = Some s2 ∧
       field <$> gens s !! g' = field <$> gens (store w) !! g' ∧
       field <$> gens (store w') !! g' = field <$> gens s2 !! g') ∧
  (∀ G, gens (store w) !! g = Some G →
        is_live (store w) value = true →
        ∃ sw, switches w' = switches w ++ [sw] ∧
              sw_from sw = mkFiberRef g at_m_yielder_context ∧
              sw_to sw = mkFiberRef g at_m_caller_context ∧
              gens (sw_store sw) !! g =
              Some (set_m_yielder_context (N.succ (m_yielder_context G))
                      (set_m_yielded value G))).
Proof.
  cbv zeta.
  destruct (gens (store w) !! g) as [G|] eqn:HG;
    [|destruct (YIELD_VALUE_undefined caller g value w HG) as [? ->];
      split; [|split]; intros; (by left) || done].
  destruct (is_live (store w) value) eqn:Hl;
    [|destruct (YIELD_VALUE_not_live caller g value w Hl) as [? ->];
      split; [|split]; intros; (by left) || done].
  rewrite (YIELD_VALUE_unfold caller g G) by done.
  assert (switches (world_of
            match caller (yielded_switches g value G w)
                         (yielded_store g value G (store w)) with
            | Some s' =>
                (CHECK_EXCEPTION PyTraceBack_Type g ;; load g m_yielded)
                  (mkWorld s' (yielded_switches g value G w))
            | None =>
                Suspended (mkWorld (yielded_store g value G (store w))
                                   (yielded_switches g value G w))
            end) = yielded_switches g value G w) as Hsw.
  { destruct (caller _ _) as [s2|]; [|done].
    by destruct (after_switch_silent g
                   (mkWorld s2 (yielded_switches g value G w))) as [-> _]. }
  split; [|split].
  - destruct (caller _ _) as [s2|] eqn:Hc.
    + intros g' _ Hne. right. eexists _, _, s2. split; [exact Hc|].
      split; [simpl; by rewrite lookup_insert_ne|].
      pose proof (resets_kind_lookup g _ _ g'
                    (preserves_bind (resets_kind_at_most_trans g) _ _
                       (touches_CHECK_EXCEPTION g)
                       (λ _, preserves_load (resets_kind_at_most_refl g)
                               g m_yielded)
                       (mkWorld s2 (yielded_switches g value G w)))) as Hk.
      simpl in Hk. destruct (gens s2 !! g'); [|done].
      by destruct Hk as [?|[? _]].
    + intros g' _ Hne. left. simpl. by rewrite lookup_insert_ne.
  - intros A field g' _ Hy He Hx.
    assert (field <$> gens (yielded_store g value G (store w)) !! g'
            = field <$> gens (store w) !! g') as Hs1.
    { apply (silent_field field w
               (with_store (yielded_store g value G (store w)) w));
        try done.
      by apply silent_yielded_store. }
    destruct (caller _ _) as [s2|] eqn:Hc; [|by left].
    right. eexists _, _, s2. split; [exact Hc|]. split; [exact Hs1|].
    apply (silent_field field
             (mkWorld s2 (yielded_switches g value G w))); try done.
    apply after_switch_silent.
  - intros G0 [= <-] _. rewrite Hsw. eexists. split; [reflexivity|].
    cbn [sw_from sw_to sw_store]. split; [done|]. split; [done|].
    apply yielded_store_lookup.
Qed.

(** ** The references of the error indicator *)

(** X5. The raise keeps the references of the error indicator counted, and
    with that the raised objects alive.  With a live kind in the slot, the
    value and traceback slots holding null or live objects, the references
    of the indicator counted and no count about to wrap around, the raise
    is defined, and after it every reference that the indicator owns is
    counted in its object again: the kind, and the value and the traceback
    that were installed when they are not null, are live objects, also when
    the indicator held the same objects before and gave up its old
    references to them (the references are acquired before the old ones are
    released), and also when the traceback of the slot was dropped. *)
Theorem CHECK_EXCEPTION_keeps_indicator_counted
    (g : addr) (G : Nuitka_GeneratorObject) (w : World) :
  gens (store w) !! g = Some G →
  is_live (store w) (m_exception_type G) = true →
  raise_defined (store w) g G →
  ∃ w', CHECK_EXCEPTION PyTraceBack_Type g w = Thrown w' ∧
        indicator_counted (store w') ∧
        is_live (store w') (curexc_type (tstate (store w'))) = true ∧
        null_or_live (store w') (curexc_value (tstate (store w'))) ∧
        null_or_live (store w') (curexc_traceback (tstate (store w'))) ∧
        curexc_type (tstate (store w')) = m_exception_type G ∧
        curexc_value (tstate (store w')) = m_exception_value G.
Proof.
  intros HG Hlive Hdef.
  pose proof Hlive as [Hne _]%is_live_spec.
  destruct (CHECK_EXCEPTION_raises g G w HG Hlive Hdef)
    as (w' & E & Hr & Hrc & _).
  destruct Hdef as (_ & _ & Hc & _).
  pose proof (λ a, tstate_refs_raised g G w w' a Hr) as Ht.
  assert (indicator_counted (store w')) as Hc'.
  { intros a. rewrite Ht, Hrc. specialize (Hc a). lia. }
  assert (∀ o, o ≠ NULL → 1 ≤ tstate_refs (store w') o →
               is_live (store w') o = true) as Hl.
  { intros o Ho H1. apply is_live_rc. split; [done|].
    specialize (Hc' o). lia. }
  exists w'. split; [exact E|]. split; [exact Hc'|].
  rewrite (rs_tstate _ _ _ _ _ Hr). simpl.
  set (tb' := checked_traceback PyTraceBack_Type (store w)
                (m_exception_tb G)) in *.
  split; [|split; [|split]]; [| | |done].
  - apply Hl; [done|]. rewrite Ht. rewrite ref_to_self by done.
    pose proof (ref_to_range (m_exception_value G) (m_exception_type G)).
    pose proof (ref_to_range tb' (m_exception_type G)). lia.
  - destruct (decide (m_exception_value G = NULL)) as [?|Hv]; [by left|].
    right. apply Hl; [done|]. rewrite Ht.
    rewrite (ref_to_self (m_exception_value G)) by done.
    pose proof (ref_to_range (m_exception_type G) (m_exception_value G)).
    pose proof (ref_to_range tb' (m_exception_value G)). lia.
  - destruct (decide (tb' = NULL)) as [?|Hv]; [by left|].
    right. apply Hl; [done|]. rewrite Ht. fold tb'.
    rewrite (ref_to_self tb') by done.
    pose proof (ref_to_range (m_exception_type G) tb').
    pose proof (ref_to_range (m_exception_value G) tb'). lia.
Qed.

(** ** YIELD_RETURN before version 2.7 *)

(** X6. Compiled for a version before 2.7, YIELD_RETURN of a live value
    other than None is one more yield whose result is dropped: the value is
    in the slot at one switch to the caller; if the caller never switches
    back the producer stays suspended in it; on resumption with no error
    pending it returns, whatever value the caller sent, leaving the store as
    the caller handed it back; and an error injected at that resumption
    (live kind, value and traceback null or live, the references of the
    indicator counted, counts in range) is thrown out of YIELD_RETURN, with
    the kind and the value of the slots in the error indicator, and the
    traceback of the slot if that is null or a traceback object, a null
    traceback otherwise. *)
Theorem YIELD_RETURN_legacy_yield
    (Py_None : addr) (PYTHON_VERSION : Z)
    (caller : list Switch → Store → option Store)
    (g : addr) (G : Nuitka_GeneratorObject) (value : addr) (w : World) :
  PYTHON_VERSION < 270 →
  value ≠ Py_None →
  gens (store w) !! g = Some G →
  is_live (store w) value = true →
  let s1 := yielded_store g value G (store w) in
  let sws := yielded_switches g value G w in
  (caller sws s1 = None →
   YIELD_RETURN PyTraceBack_Type Py_None PYTHON_VERSION caller g value w
   = Suspended (mkWorld s1 sws)) ∧
  (∀ s2 G2,
     caller sws s1 = Some s2 →
     gens s2 !! g = Some G2 →
     (m_exception_type G2 = NULL →
      YIELD_RETURN PyTraceBack_Type Py_None PYTHON_VERSION caller g value w
      = Returned tt (mkWorld s2 sws)) ∧
     (is_live s2 (m_exception_type G2) = true →
      raise_defined s2 g G2 →
      ∃ w', YIELD_RETURN PyTraceBack_Type Py_None PYTHON_VERSION caller
              g value w = Thrown w' ∧
            tstate (store w') =
            mkTState (m_exception_type G2) (m_exception_value G2)
                     (checked_traceback PyTraceBack_Type s2
                        (m_exception_tb G2)) ∧
            (m_exception_tb G2 = NULL ∨
             (∃ h, heap s2 !! m_exception_tb G2 = Some h ∧
                   ob_type h = PyTraceBack_Type) →
             curexc_traceback (tstate (store w')) = m_exception_tb G2) ∧
            (m_exception_tb G2 ≠ NULL →
             (∀ h, heap s2 !! m_exception_tb G2 = Some h →
                   ob_type h ≠ PyTraceBack_Type) →
             curexc_traceback (tstate (store w')) = NULL) ∧
            switches w' = sws)).
Proof.
  intros Hv Hn HG Hl s1 sws.
  assert (YIELD_RETURN PyTraceBack_Type Py_None PYTHON_VERSION caller
            g value w
          = (YIELD_VALUE PyTraceBack_Type caller g value ;; mret tt) w) as ->.
  { unfold YIELD_RETURN.
    destruct (Z.ltb_spec PYTHON_VERSION 270); [|lia].
    by destruct (N.eqb_spec value Py_None). }
  rewrite bind_unfold, (YIELD_VALUE_unfold caller g G) by done.
  fold s1 sws. split.
  - intros Hc. by rewrite Hc.
  - intros s2 G2 Hc HG2. rewrite Hc. split.
    + intros Hk. by rewrite (after_switch_Returned g G2).
    + intros Hk Hd.
      destruct (CHECK_EXCEPTION_raises g G2 (mkWorld s2 sws))
        as (w' & E & Hr & _); try done.
      exists w'. apply after_switch_Thrown in E. rewrite E.
      split; [done|]. rewrite (rs_tstate _ _ _ _ _ Hr). simpl.
      split; [done|]. split; [apply checked_traceback_same|].
      split; [apply checked_traceback_dropped|].
      exact (rs_switches _ _ _ _ _ Hr).
Qed.


End Header_properties.

(** * The properties at concrete stores *)

(** The traceback type of the example store is 105. *)

Lemma Nuitka_Generator_Check_exact_witness :
  heap (store ex_world) !! 50%N = Some (mkHead 1 101) ∧
  derives_from (store ex_world) 101 100 ∧
  Nuitka_Generator_Check 100 50 ex_world = Returned false ex_world ∧
  Nuitka_Generator_Check 100 10 ex_world = Returned true ex_world.
Proof.
  assert (heap (store ex_world) !! 50%N = Some (mkHead 1 101)) as H50
    by (vm_compute; reflexivity).
  assert (derives_from (store ex_world) 101 100) as Hd
    by (apply derives_base; vm_compute; reflexivity).
  split; [exact H50|]. split; [exact Hd|]. split.
  - apply (Nuitka_Generator_Check_exact 100 50 (mkHead 1 101) ex_world H50);
      [exact Hd|]. simpl. lia.
  - destruct (Nuitka_Generator_Check_exact 100 10 (mkHead 1 100) ex_world)
      as [(b & Hb & Hiff) _]; [vm_compute; reflexivity|].
    rewrite Hb. f_equal. by apply Hiff.
Defined.

Lemma ex_send_keeps {A} (field : Nuitka_GeneratorObject → A) (R : relation A)
    sent g :
  (∀ a, R a a) →
  (∀ v G, field (set_m_yielded v G) = field G) →
  caller_keeps (ex_send sent) field R g.
Proof.
  intros HR Hf sws s s' [= <-] G HG. unfold ex_sent. simpl.
  rewrite lookup_alter.
  destruct (decide (10%N = g)) as [<-|]; rewrite HG; simpl.
  - eexists. split; [done|]. rewrite Hf. apply HR.
  - eauto.
Qed.

Lemma Nuitka_Generator_GetName_pure_witness :
  gens (store ex_world) !! 10%N = Some ex_generator ∧
  caller_keeps (ex_send 7) m_name eq 10 ∧
  Nuitka_Generator_GetName 10 ex_world = Returned 11%N ex_world ∧
  ∃ G', gens (store (world_of
                (run_ops 105 100 7 260 (ex_send 7)
                   [op_YIELD_VALUE 10 20; op_GetName 10; op_YIELD_RETURN 10 21]
                   ex_world))) !! 10%N = Some G' ∧
        m_name G' = 11%N.
Proof.
  assert (gens (store ex_world) !! 10%N = Some ex_generator) as HG
    by (vm_compute; reflexivity).
  assert (caller_keeps (ex_send 7) m_name eq 10) as Hc
    by (by apply ex_send_keeps).
  split; [exact HG|]. split; [exact Hc|].
  destruct (Nuitka_Generator_GetName_pure 105 100 7 260 (ex_send 7) 10
              ex_generator ex_world HG) as [Hname Hkept].
  split; [exact Hname|]. exact (Hkept Hc _).
Defined.

Lemma CHECK_EXCEPTION_raises_checked_objects_witness :
  ∃ w1 w2 w3,
    CHECK_EXCEPTION 105 10 ex_pending_world = Thrown w1 ∧
    tstate (store w1) = mkTState 30 31 32 ∧
    YIELD_VALUE 105 (ex_throw 30 31 32) 10 20 ex_world = Thrown w2 ∧
    tstate (store w2) = mkTState 30 31 32 ∧
    CHECK_EXCEPTION 105 10 ex_untraced_world = Thrown w3 ∧
    curexc_type (tstate (store w3)) = 30%N ∧
    curexc_value (tstate (store w3)) = 31%N ∧
    curexc_traceback (tstate (store w3)) = NULL.
Proof.
  eexists _, _, _.
  assert (∀ w1, CHECK_EXCEPTION 105 10 ex_pending_world = Thrown w1 →
                tstate (store w1) = mkTState 30 31 32) as H1.
  { intros w1 E.
    destruct (CHECK_EXCEPTION_raises_checked_objects 105 ex_never 10
                ex_pending_world w1) as (_ & H & _).
    destruct (H E) as (G & HG & Ht & Hv & _ & Htb & _).
    vm_compute in HG. injection HG as <-.
    destruct (tstate (store w1)) as [t v tb]. simpl in *. subst t v.
    f_equal. apply Htb. right. exists (mkHead 1 105).
    split; vm_compute; reflexivity. }
  assert (∀ w2, YIELD_VALUE 105 (ex_throw 30 31 32) 10 20 ex_world
                = Thrown w2 →
                tstate (store w2) = mkTState 30 31 32) as H2.
  { intros w2 E.
    destruct (CHECK_EXCEPTION_raises_checked_objects 105 (ex_throw 30 31 32)
                10 ex_world w2) as (_ & _ & H).
    destruct (H 20%N E) as (G & sws & s2 & G2 & HG & Hc & HG2 & ->).
    vm_compute in HG. injection HG as <-.
    injection Hc as <-. vm_compute in HG2. by injection HG2 as <-. }
  assert (∀ w3, CHECK_EXCEPTION 105 10 ex_untraced_world = Thrown w3 →
                curexc_type (tstate (store w3)) = 30%N ∧
                curexc_value (tstate (store w3)) = 31%N ∧
                curexc_traceback (tstate (store w3)) = NULL) as H3.
  { intros w3 E.
    destruct (CHECK_EXCEPTION_raises_checked_objects 105 ex_never 10
                ex_untraced_world w3) as (_ & H & _).
    destruct (H E) as (G & HG & Ht & Hv & _ & _ & Htb).
    vm_compute in HG. injection HG as <-.
    split; [exact Ht|]. split; [exact Hv|]. apply Htb; [done|].
    intros h Hh. vm_compute in Hh. injection Hh as <-. done. }
  split; [vm_compute; reflexivity|].
  split; [apply H1; vm_compute; reflexivity|].
  split; [vm_compute; reflexivity|].
  split; [apply H2; vm_compute; reflexivity|].
  split; [vm_compute; reflexivity|].
  apply H3; vm_compute; reflexivity.
Defined.

Lemma CHECK_EXCEPTION_resets_kind_only_witness :
  gens (store ex_pending_world) !! 10%N = Some ex_pending_generator ∧
  caller_keeps (ex_send 7) m_exception_type eq 10 ∧
  ∃ w', CHECK_EXCEPTION 105 10 ex_pending_world = Thrown w' ∧
        (∃ G', gens (store w') !! 10%N = Some G' ∧
               m_exception_type G' = NULL ∧
               m_exception_value G' = 31%N ∧
               m_exception_tb G' = 32%N) ∧
        CHECK_EXCEPTION 105 10 w' = Returned tt w' ∧
        ∀ w'', YIELD_VALUE 105 (ex_send 7) 10 21 w' ≠ Thrown w''.
Proof.
  assert (gens (store ex_pending_world) !! 10%N = Some ex_pending_generator)
    as HG by (vm_compute; reflexivity).
  assert (caller_keeps (ex_send 7) m_exception_type eq 10) as Hk
    by (by apply ex_send_keeps).
  split; [exact HG|]. split; [exact Hk|].
  eexists. split; [vm_compute; reflexivity|].
  match goal with |- context [CHECK_EXCEPTION 105 _ ?w = Returned _ _] =>
    set (w' := w) end.
  destruct (CHECK_EXCEPTION_resets_kind_only 105 10 ex_pending_generator
              ex_pending_world HG) as [_ H].
  destruct (H w' ltac:(vm_compute; reflexivity)) as (_ & Hf & Hc & Hy).
  split; [exact Hf|]. split; [exact Hc|].
  intros w''. by apply Hy.
Defined.

(** The counts of the example store are in range. *)
Lemma ex_store_rc a : 0 ≤ rc ex_store a ∧ rc ex_store a + 3 ≤ PY_SSIZE_T_MAX.
Proof.
  unfold rc. destruct (heap ex_store !! a) as [h|] eqn:Hh; [|by vm_compute].
  cbv [ex_store heap] in Hh. apply elem_of_list_to_map_2 in Hh.
  repeat (apply elem_of_cons in Hh as [[= -> ->]|Hh]; [by vm_compute|]).
  by apply elem_of_nil in Hh.
Qed.

Lemma ex_counts_bounded s : heap s = heap ex_store → counts_bounded s.
Proof. intros H a. unfold rc. rewrite H. apply ex_store_rc. Qed.

Lemma ref_to_notin o a (l : list N) :
  a ∉ l → o = NULL ∨ o ∈ l → ref_to o a = 0.
Proof.
  intros Ha [->|Ho]; [apply ref_to_NULL|].
  apply ref_to_other. by intros ->.
Qed.

(** References to a few objects of the example store are counted when they
    are counted for each of these objects. *)
Lemma ex_counted_by_cases s (d : N → Z) (l : list N) :
  heap s = heap ex_store →
  (∀ a, a ∉ l → d a = 0) →
  Forall (λ a, d a ≤ rc s a) l →
  ∀ a, d a ≤ rc s a.
Proof.
  intros Hh Hd Hl a. destruct (decide (a ∈ l)) as [Hin|Hout].
  - by apply (proj1 (Forall_forall _ _) Hl).
  - rewrite (Hd a Hout). unfold rc. rewrite Hh. apply ex_store_rc.
Qed.

Lemma ex_indicator_null s :
  heap s = heap ex_store → tstate s = mkTState 0 0 0 → indicator_counted s.
Proof.
  intros Hh Ht a. unfold tstate_refs. rewrite Ht. simpl.
  rewrite !ref_to_NULL. unfold rc. rewrite Hh. apply ex_store_rc.
Qed.

Lemma ex_raise_defined s g G :
  heap s = heap ex_store → tstate s = mkTState 0 0 0 →
  null_or_live s (m_exception_value G) →
  null_or_live s (m_exception_tb G) →
  generator_kept s g →
  raise_defined s g G.
Proof.
  intros Hh Ht Hv Htb Hg. split; [done|]. split; [done|].
  split; [by apply ex_indicator_null|].
  split; [by apply ex_counts_bounded|done].
Qed.

Lemma ex_reraise_counted : indicator_counted (store ex_reraise_world).
Proof.
  intros a0.
  apply (ex_counted_by_cases (store ex_reraise_world)
           (tstate_refs (store ex_reraise_world)) [30; 31]%N); [done| |].
  - intros b Hb. unfold tstate_refs. simpl.
    rewrite (ref_to_notin 30 b [30; 31]%N Hb) by (right; repeat constructor).
    rewrite (ref_to_notin 31 b [30; 31]%N Hb) by (right; repeat constructor).
    by rewrite (ref_to_notin 0 b [30; 31]%N Hb) by by left.
  - repeat constructor; by vm_compute.
Qed.

Lemma ex_reraise_defined :
  raise_defined (store ex_reraise_world) 10 ex_pending_generator.
Proof.
  split; [right; vm_compute; reflexivity|].
  split; [right; vm_compute; reflexivity|].
  split; [apply ex_reraise_counted|].
  split; [by apply ex_counts_bounded|vm_compute; reflexivity].
Qed.




Lemma YIELD_VALUE_hand_off_witness :
  gens (store ex_world) !! 10%N = Some ex_generator ∧
  is_live (store ex_world) 20 = true ∧
  YIELD_VALUE 105 (ex_send 7) 10 20 ex_world
  = Returned 7%N
      (mkWorld (ex_sent 7 (yielded_store 10 20 ex_generator ex_store))
               (yielded_switches 10 20 ex_generator ex_world)) ∧
  YIELD_VALUE 105 ex_never 10 20 ex_world
  = Suspended (mkWorld (yielded_store 10 20 ex_generator ex_store)
                       (yielded_switches 10 20 ex_generator ex_world)) ∧
  (∃ w', YIELD_VALUE 105 (ex_throw 30 31 32) 10 20 ex_world = Thrown w' ∧
         tstate (store w') = mkTState 30 31 32) ∧
  (∃ w', YIELD_VALUE 105 (ex_throw 30 31 7) 10 20 ex_world = Thrown w' ∧
         tstate (store w') = mkTState 30 31 NULL).
Proof.
  assert (gens (store ex_world) !! 10%N = Some ex_generator) as HG
    by (vm_compute; reflexivity).
  assert (is_live (store ex_world) 20 = true) as Hl
    by (vm_compute; reflexivity).
  split; [exact HG|]. split; [exact Hl|]. split; [|split; [|split]].
  - destruct (YIELD_VALUE_hand_off 105 (ex_send 7) 10 ex_generator 20 ex_world
                HG Hl) as (_ & _ & H).
    destruct (H (ex_sent 7 (yielded_store 10 20 ex_generator ex_store))
                (set_m_yielded 7
                   (set_m_yielder_context 2 (set_m_yielded 20 ex_generator))))
      as [Hret _]; [reflexivity|vm_compute; reflexivity|].
    apply Hret. reflexivity.
  - destruct (YIELD_VALUE_hand_off 105 ex_never 10 ex_generator 20 ex_world
                HG Hl) as (_ & H & _).
    apply H. reflexivity.
  - destruct (YIELD_VALUE_hand_off 105 (ex_throw 30 31 32) 10 ex_generator 20
                ex_world HG Hl) as (_ & _ & H).
    destruct (H (ex_injected 30 31 32
                   (yielded_store 10 20 ex_generator ex_store))
                (set_m_yielder_context 2 ex_pending_generator))
      as [_ Hthrow]; [reflexivity|vm_compute; reflexivity|].
    destruct Hthrow as (w' & E & _ & Ht & _).
    + vm_compute. discriminate.
    + vm_compute; reflexivity.
    + apply ex_raise_defined;
        [done|done|right; vm_compute; reflexivity
        |right; vm_compute; reflexivity|vm_compute; reflexivity].
    + exists w'. split; [exact E|]. rewrite Ht. vm_compute. reflexivity.
  - destruct (YIELD_VALUE_hand_off 105 (ex_throw 30 31 7) 10 ex_generator 20
                ex_world HG Hl) as (_ & _ & H).
    destruct (H (ex_injected 30 31 7
                   (yielded_store 10 20 ex_generator ex_store))
                (set_m_yielder_context 2 ex_untraced_generator))
      as [_ Hthrow]; [reflexivity|vm_compute; reflexivity|].
    destruct Hthrow as (w' & E & _ & Ht & _).
    + vm_compute. discriminate.
    + vm_compute; reflexivity.
    + apply ex_raise_defined;
        [done|done|right; vm_compute; reflexivity
        |right; vm_compute; reflexivity|vm_compute; reflexivity].
    + exists w'. split; [exact E|]. rewrite Ht. vm_compute. reflexivity.
Defined.

Lemma YIELD_VALUE_live_payload_witness :
  gens (store ex_world) !! 10%N = Some ex_generator ∧
  YIELD_VALUE 105 (ex_send 7) 10 NULL ex_world
  = Aborted AssertionFailure ex_world ∧
  YIELD_VALUE 105 (ex_send 7) 10 22 ex_world
  = Aborted AssertionFailure ex_world ∧
  no_assertion_failure (YIELD_VALUE 105 (ex_send 7) 10 20 ex_world) ∧
  no_assertion_failure (YIELD_VALUE 105 (ex_throw 30 31 32) 10 20 ex_world).
Proof.
  assert (gens (store ex_world) !! 10%N = Some ex_generator) as HG
    by (vm_compute; reflexivity).
  split; [exact HG|]. split; [|split; [|split]].
  - apply (YIELD_VALUE_live_payload 105 (ex_send 7) 10 ex_generator NULL
             ex_world HG).
    by left.
  - apply (YIELD_VALUE_live_payload 105 (ex_send 7) 10 ex_generator 22
             ex_world HG).
    right. exists (mkHead 0 103). split; [vm_compute; reflexivity|simpl; lia].
  - apply (YIELD_VALUE_live_payload 105 (ex_send 7) 10 ex_generator 20
             ex_world HG);
      [vm_compute; reflexivity|].
    intros s2 G2 [= <-] HG2. left.
    vm_compute in HG2. by injection HG2 as <-.
  - apply (YIELD_VALUE_live_payload 105 (ex_throw 30 31 32) 10 ex_generator 20
             ex_world HG); [vm_compute; reflexivity|].
    intros s2 G2 [= <-] HG2. right.
    vm_compute in HG2. injection HG2 as <-. vm_compute. reflexivity.
Defined.

Lemma YIELD_RETURN_gate_witness :
  (270 ≤ 270 ∧ YIELD_RETURN 105 7 270 ex_never 10 20 ex_world
                = Returned tt ex_world) ∧
  (7%N = 7%N ∧ YIELD_RETURN 105 7 260 ex_never 10 7 ex_world
                = Returned tt ex_world) ∧
  (260 < 270 ∧ 20%N ≠ 7%N ∧
   YIELD_RETURN 105 7 260 ex_never 10 20 ex_world
   = (YIELD_VALUE 105 ex_never 10 20 ;; mret tt) ex_world).
Proof.
  split; [split; [lia|]|split; [split; [done|]|split; [lia|split; [done|]]]].
  - apply (YIELD_RETURN_gate 105 7 270 ex_never 10 20 ex_world). left. lia.
  - apply (YIELD_RETURN_gate 105 7 260 ex_never 10 7 ex_world). by right.
  - apply (YIELD_RETURN_gate 105 7 260 ex_never 10 20 ex_world).
    split; [lia|done].
Defined.

Lemma yields_seen_in_order_witness :
  (∃ w', run_ops 105 100 7 260 (ex_send 7)
           (map (op_YIELD_VALUE 10) [20; 21; 20]%N) ex_world
         = Returned tt w') ∧
  map (seen 10)
      (switches (world_of
         (run_ops 105 100 7 260 (ex_send 7)
            (map (op_YIELD_VALUE 10) [20; 21; 20]%N) ex_world)))
  = [Some 20; Some 21; Some 20]%N.
Proof.
  assert (∃ w', run_ops 105 100 7 260 (ex_send 7)
                  (map (op_YIELD_VALUE 10) [20; 21; 20]%N) ex_world
                = Returned tt w') as Hrun
    by (eexists; vm_compute; reflexivity).
  split; [exact Hrun|]. destruct Hrun as [w' Hrun].
  destruct (yields_seen_in_order 105 100 7 260 (ex_send 7) 10 [20; 21; 20]%N
              ex_world) as (new & Hsw & Hmap & Hlen).
  rewrite Hsw. change (switches ex_world) with (@nil Switch).
  rewrite app_nil_l, Hmap, (Hlen w' Hrun). reflexivity.
Defined.

Lemma status_only_advances_witness :
  caller_keeps (ex_send 7) m_status table_reachable 10 ∧
  gens (store ex_world) !! 10%N = Some ex_generator ∧
  ∃ G', gens (store (world_of
              (run_ops 105 100 7 260 (ex_send 7)
                 [op_YIELD_VALUE 10 20; op_CHECK_EXCEPTION 10;
                  op_YIELD_RETURN 10 21; op_Check 10]
                 ex_world))) !! 10%N = Some G' ∧
        status_le status_Running (m_status G').
Proof.
  assert (caller_keeps (ex_send 7) m_status table_reachable 10) as Ht
    by (apply ex_send_keeps; [intros a; by exists []|done]).
  assert (gens (store ex_world) !! 10%N = Some ex_generator) as HG
    by (vm_compute; reflexivity).
  split; [exact Ht|]. split; [exact HG|].
  destruct (status_only_advances 105 100 7 260 (ex_send 7) 10)
    as (_ & _ & _ & Hrun & _).
  exact (Hrun Ht _ ex_world ex_generator HG).
Defined.


Lemma Check_and_GetName_across_CHECK_EXCEPTION_witness :
  let w' := world_of (CHECK_EXCEPTION 105 10 ex_release_world) in
  is_Some (heap (store w') !! 10%N) ∧
  returned (Nuitka_Generator_Check 100 10 w') = Some true ∧
  returned (Nuitka_Generator_GetName 10 w') = Some 11%N ∧
  returned (Nuitka_Generator_Check 100 20 ex_release_world) = Some false ∧
  heap (store w') !! 20%N = None ∧
  Nuitka_Generator_Check 100 20 w' = Aborted UndefinedBehaviour w'.
Proof.
  cbv zeta.
  assert (is_Some (heap (store (world_of
            (CHECK_EXCEPTION 105 10 ex_release_world))) !! 10%N)) as H10
    by (vm_compute; eauto).
  assert (heap (store (world_of
            (CHECK_EXCEPTION 105 10 ex_release_world))) !! 20%N = None)
    as H20 by (vm_compute; reflexivity).
  destruct (Check_and_GetName_across_CHECK_EXCEPTION 105 100 10 10
              ex_release_world) as [Hkept _].
  destruct (Hkept H10) as [Hc Hn].
  destruct (Check_and_GetName_across_CHECK_EXCEPTION 105 100 10 20
              ex_release_world) as [_ Hfreed].
  split; [exact H10|].
  split; [rewrite Hc; vm_compute; reflexivity|].
  split; [rewrite Hn; vm_compute; reflexivity|].
  split; [vm_compute; reflexivity|].
  split; [exact H20|exact (Hfreed H20)].
Defined.

Lemma Check_guards_GetName_witness :
  generators_typed 100 (store ex_world) ∧
  Nuitka_Generator_Check 100 10 ex_world = Returned true ex_world ∧
  ∃ G, gens (store ex_world) !! 10%N = Some G ∧
       Nuitka_Generator_GetName 10 ex_world = Returned (m_name G) ex_world.
Proof.
  assert (generators_typed 100 (store ex_world)) as Hty.
  { intros o h Hh Ht.
    assert (o = 10%N) as ->; [|by eexists].
    change (heap (store ex_world)) with
      (list_to_map (M := gmap N PyObject_HEAD)
         [(10, mkHead 1 100); (11, mkHead 1 102); (20, mkHead 1 103);
          (21, mkHead 2 103); (22, mkHead 0 103); (30, mkHead 5 104);
          (31, mkHead 1 30); (32, mkHead 1 105); (50, mkHead 1 101);
          (7, mkHead 9 106)]%N) in Hh.
    apply elem_of_list_to_map_2 in Hh.
    repeat (apply elem_of_cons in Hh as [[= -> ->]|Hh];
            [simpl in Ht; try done; try discriminate|]).
    by apply elem_of_nil in Hh. }
  assert (Nuitka_Generator_Check 100 10 ex_world = Returned true ex_world)
    as Hc by (vm_compute; reflexivity).
  split; [exact Hty|]. split; [exact Hc|].
  destruct (Check_guards_GetName 105 100 10 ex_world Hty) as [H _].
  exact (H Hc).
Defined.

Lemma YIELD_VALUE_leaves_the_rest_witness :
  12%N ≠ 10%N ∧
  gens (store (world_of (YIELD_VALUE 105 (ex_send 7) 10 20 ex_world2)))
    !! 12%N
  = Some (set_m_yielded 21 ex_generator) ∧
  m_running <$>
    gens (store (world_of (YIELD_VALUE 105 (ex_send 7) 10 20 ex_world2)))
      !! 10%N
  = Some 1 ∧
  m_caller_context <$>
    gens (store (world_of (YIELD_VALUE 105 (ex_send 7) 10 20 ex_world2)))
      !! 10%N
  = Some 2%N ∧
  m_yielder_context <$>
    gens (store (world_of (YIELD_VALUE 105 (ex_send 7) 10 20 ex_world2)))
      !! 10%N
  = Some 2%N ∧
  m_yielder_context ex_generator = 1%N.
Proof.
  assert (12%N ≠ 10%N) as Hne by done.
  split; [exact Hne|].
  destruct (YIELD_VALUE_leaves_the_rest 105 (ex_send 7) 10 20 ex_world2)
    as (Hother & Hfield & _).
  assert (∀ o, o = 10%N ∨ o = 12%N →
               is_Some (heap (store (world_of
                 (YIELD_VALUE 105 (ex_send 7) 10 20 ex_world2))) !! o))
    as Hthere by (intros o [-> | ->]; vm_compute; eauto).
  split; [|split; [|split]].
  - destruct (Hother 12%N (Hthere _ (or_intror eq_refl)) Hne)
      as [->|(sws & s & s2 & [= <-] & Hs & ->)].
    + vm_compute. reflexivity.
    + unfold ex_sent. simpl. rewrite lookup_alter_ne by done. rewrite Hs.
      vm_compute. reflexivity.
  - destruct (Hfield Z m_running 10%N (Hthere _ (or_introl eq_refl))
                ltac:(done) ltac:(done) ltac:(done))
      as [->|(sws & s & s2 & [= <-] & Hs & ->)].
    + vm_compute. reflexivity.
    + unfold ex_sent. simpl. rewrite lookup_alter.
      destruct (decide (10%N = 10%N)); [|done].
      rewrite <- option_fmap_compose.
      change (m_running ∘ set_m_yielded 7) with m_running.
      rewrite Hs. vm_compute. reflexivity.
  - destruct (Hfield N m_caller_context 10%N (Hthere _ (or_introl eq_refl))
                ltac:(done) ltac:(done) ltac:(done))
      as [->|(sws & s & s2 & [= <-] & Hs & ->)].
    + vm_compute. reflexivity.
    + unfold ex_sent. simpl. rewrite lookup_alter.
      destruct (decide (10%N = 10%N)); [|done].
      rewrite <- option_fmap_compose.
      change (m_caller_context ∘ set_m_yielded 7) with m_caller_context.
      rewrite Hs. vm_compute. reflexivity.
  - split; vm_compute; reflexivity.
Defined.

Lemma CHECK_EXCEPTION_keeps_indicator_counted_witness :
  gens (store ex_reraise_world) !! 10%N = Some ex_pending_generator ∧
  is_live (store ex_reraise_world) 30 = true ∧
  raise_defined (store ex_reraise_world) 10 ex_pending_generator ∧
  rc (store ex_reraise_world) 31 = 1 ∧
  curexc_value (tstate (store ex_reraise_world)) = 31%N ∧
  ∃ w', CHECK_EXCEPTION 105 10 ex_reraise_world = Thrown w' ∧
        indicator_counted (store w') ∧
        is_live (store w') 30 = true ∧
        is_live (store w') 31 = true.
Proof.
  assert (gens (store ex_reraise_world) !! 10%N = Some ex_pending_generator)
    as HG by (vm_compute; reflexivity).
  assert (is_live (store ex_reraise_world) 30 = true) as Hl
    by (vm_compute; reflexivity).
  split; [exact HG|]. split; [exact Hl|].
  split; [exact ex_reraise_defined|].
  split; [vm_compute; reflexivity|]. split; [reflexivity|].
  destruct (CHECK_EXCEPTION_keeps_indicator_counted 105 10
              ex_pending_generator ex_reraise_world HG Hl ex_reraise_defined)
    as (w' & E & Hc & Ht & Hv & _ & Et & Ev).
  exists w'. split; [exact E|]. split; [exact Hc|].
  rewrite Et in Ht. rewrite Ev in Hv.
  split; [exact Ht|]. by destruct Hv.
Defined.

Lemma YIELD_RETURN_legacy_yield_witness :
  260 < 270 ∧ 20%N ≠ 7%N ∧
  gens (store ex_world) !! 10%N = Some ex_generator ∧
  is_live (store ex_world) 20 = true ∧
  YIELD_RETURN 105 7 260 (ex_send 21) 10 20 ex_world
  = Returned tt
      (mkWorld (ex_sent 21 (yielded_store 10 20 ex_generator ex_store))
               (yielded_switches 10 20 ex_generator ex_world)) ∧
  (∃ w', YIELD_RETURN 105 7 260 (ex_throw 30 31 32) 10 20 ex_world
         = Thrown w' ∧
         tstate (store w') = mkTState 30 31 32) ∧
  (∃ w', YIELD_RETURN 105 7 260 (ex_throw 30 31 7) 10 20 ex_world
         = Thrown w' ∧
         tstate (store w') = mkTState 30 31 NULL).
Proof.
  assert (260 < 270) as Hv by lia.
  assert (20%N ≠ 7%N) as Hn by done.
  assert (gens (store ex_world) !! 10%N = Some ex_generator) as HG
    by (vm_compute; reflexivity).
  assert (is_live (store ex_world) 20 = true) as Hl
    by (vm_compute; reflexivity).
  split; [exact Hv|]. split; [exact Hn|]. split; [exact HG|].
  split; [exact Hl|]. split; [|split].
  - destruct (YIELD_RETURN_legacy_yield 105 7 260 (ex_send 21) 10
                ex_generator 20 ex_world Hv Hn HG Hl) as [_ H].
    destruct (H (ex_sent 21 (yielded_store 10 20 ex_generator ex_store))
                (set_m_yielded 21
                   (set_m_yielder_context 2 (set_m_yielded 20 ex_generator))))
      as [Hret _]; [reflexivity|vm_compute; reflexivity|].
    apply Hret. reflexivity.
  - destruct (YIELD_RETURN_legacy_yield 105 7 260 (ex_throw 30 31 32) 10
                ex_generator 20 ex_world Hv Hn HG Hl) as [_ H].
    destruct (H (ex_injected 30 31 32
                   (yielded_store 10 20 ex_generator ex_store))
                (set_m_yielder_context 2 ex_pending_generator))
      as [_ Hthrow]; [reflexivity|vm_compute; reflexivity|].
    destruct Hthrow as (w' & E & Ht & _).
    + vm_compute; reflexivity.
    + apply ex_raise_defined;
        [done|done|right; vm_compute; reflexivity
        |right; vm_compute; reflexivity|vm_compute; reflexivity].
    + exists w'. split; [exact E|]. rewrite Ht. vm_compute. reflexivity.
  - destruct (YIELD_RETURN_legacy_yield 105 7 260 (ex_throw 30 31 7) 10
                ex_generator 20 ex_world Hv Hn HG Hl) as [_ H].
    destruct (H (ex_injected 30 31 7
                   (yielded_store 10 20 ex_generator ex_store))
                (set_m_yielder_context 2 ex_untraced_generator))
      as [_ Hthrow]; [reflexivity|vm_compute; reflexivity|].
    destruct Hthrow as (w' & E & Ht & _).
    + vm_compute; reflexivity.
    + apply ex_raise_defined;
        [done|done|right; vm_compute; reflexivity
        |right; vm_compute; reflexivity|vm_compute; reflexivity].
    + exists w'. split; [exact E|]. rewrite Ht. vm_compute. reflexivity.
Defined.
